(** * BackendSQL_Program: the JSON-to-PostgreSQL loader, embedded in Rocq

    The program reads every file of a directory with [json.load], records the
    file names in the table [parsed_files], and turns each parsed document into
    rows of the table named by the first segment of its title.

    Modelling choices.
    - A value produced by [json.load] is a [json]; a Python [dict] is an
      association list in insertion order (iteration order of [.values()]
      decides the order of the rows and which error is met first).
    - A Python exception is a constructor of [exn]; a computation is a function
      from the connection state to the new state and either a value or the
      exception raised ([M]).  Nothing in the program catches any of the
      exceptions modelled here: [main] only has [except ConnectionError].
    - The database is a ledger table and, for each name [CREATE TABLE IF NOT
      EXISTS] was run for, the rows inserted under that name.  The server
      refuses a zero-length identifier, cuts an identifier to 63 bytes, finds
      the ledger under the name [parsed_files], and decides, by the types of
      the columns, which rows an [INSERT] stores: that verdict is the
      parameter [accepts] of the development ([Server]).  A database that
      holds under the name [parsed_files] a table other than the ledger is
      outside the model.
    - A psycopg2 connection is a committed store and a working store;
      [commit] copies the second into the first and closing the connection
      drops what was not committed.
    - A file on disk is represented by what [json.load] does on it: it
      parses, or it is not valid JSON.  Files that cannot be opened or
      decoded as text are outside the model.
    - A character of a Python [str] is one [ascii]: the strings covered are
      those of code points up to U+00FF. *)

From Stdlib Require Import String Ascii List Bool ZArith Lia.
Import ListNotations.
Local Open Scope string_scope.
Local Open Scope list_scope.

(** ** Python values and exceptions *)

Set Warnings "-register-all".

(** A number is kept as mantissa and decimal exponent; the program never
    computes on it.  The keys of a [JDict] are distinct in what [json.load]
    returns; no statement below depends on it. *)
Inductive json : Type :=
| JNull
| JBool (b : bool)
| JNum (mantissa : Z) (exponent : Z)
| JStr (s : string)
| JList (l : list json)
| JDict (d : list (string * json)).

Inductive exn : Type :=
| KeyError
| IndexError
| TypeError
| AttributeError
| JSONDecodeError
| DatabaseError.

Inductive res (A : Type) : Type :=
| Ok (a : A)
| Raise (e : exn).
Arguments Ok {A} a.
Arguments Raise {A} e.

Definition is_numeric (v : json) : bool :=
  match v with JNum _ _ => true | _ => false end.

Module Py.

Definition bind {A B} (r : res A) (k : A -> res B) : res B :=
  match r with Ok a => k a | Raise e => Raise e end.

(** [s.split(sep)] for a one-character separator. *)
Fixpoint split (sep : ascii) (s : string) : list string :=
  match s with
  | EmptyString => [EmptyString]
  | String c s' =>
      if Ascii.eqb c sep then EmptyString :: split sep s'
      else match split sep s' with
           | [] => [String c EmptyString]
           | p :: ps => String c p :: ps
           end
  end.

(** [x.split("-")]: only a [str] has the method. *)
Definition split_hyphen (x : json) : res (list string) :=
  match x with
  | JStr s => Ok (split "-"%char s)
  | _ => Raise AttributeError
  end.

(** [l[i]] for [i >= 0]. *)
Definition index {A} (l : list A) (i : nat) : res A :=
  match nth_error l i with
  | Some a => Ok a
  | None => Raise IndexError
  end.

(** [l[-1]]. *)
Definition last_item {A} (l : list A) : res A :=
  match rev l with
  | a :: _ => Ok a
  | [] => Raise IndexError
  end.

(** [s[:-n]] on a [str]. *)
Definition drop_suffix (n : nat) (s : string) : string :=
  substring 0 (String.length s - n) s.

Fixpoint lookup (k : string) (d : list (string * json)) : option json :=
  match d with
  | [] => None
  | (k', v) :: d' => if String.eqb k k' then Some v else lookup k d'
  end.

(** [x[k]] for a [str] key [k]. *)
Definition subscript (x : json) (k : string) : res json :=
  match x with
  | JDict d =>
      match lookup k d with
      | Some v => Ok v
      | None => Raise KeyError
      end
  | _ => Raise TypeError
  end.

(** [x.get(k, {})]. *)
Definition get_or_empty (x : json) (k : string) : res json :=
  match x with
  | JDict d =>
      match lookup k d with
      | Some v => Ok v
      | None => Ok (JDict [])
      end
  | _ => Raise AttributeError
  end.

(** [x.values()]. *)
Definition values (x : json) : res (list json) :=
  match x with
  | JDict d => Ok (map snd d)
  | _ => Raise AttributeError
  end.

Fixpoint is_substring (p s : string) : bool :=
  if String.prefix p s then true
  else match s with
       | EmptyString => false
       | String _ s' => is_substring p s'
       end.

Definition is_str (k : string) (v : json) : bool :=
  match v with JStr s => String.eqb k s | _ => false end.

(** [k in x] for a [str] [k]: key of a dict, element of a list, substring
    of a str; the other values are not containers. *)
Definition contains (k : string) (x : json) : res bool :=
  match x with
  | JDict d => Ok (match lookup k d with Some _ => true | None => false end)
  | JList l => Ok (existsb (is_str k) l)
  | JStr s => Ok (is_substring k s)
  | _ => Raise TypeError
  end.

End Py.

(** ** The database *)

(** The 18 columns of a test table, in the order of the INSERT statement. *)
Record Row : Type := mkRow {
  key : json;
  board_type : json;
  boot_type : json;
  release : json;
  config : json;
  last_modified : json;
  processor : json;
  memory : json;
  disk : json;
  graphics : json;
  network : json;
  os : json;
  kernel : json;
  app_title : json;
  app_version : json;
  test_description : json;
  unit_ : json;
  value : json
}.

(** [parsed_files] is [None] until the ledger is created; [tables] holds,
    for each name a table was created for, the rows inserted under it. *)
Record store : Type := mkStore {
  parsed_files : option (list string);
  tables : list (string * list Row)
}.

Record conn : Type := mkConn {
  committed : store;
  working : store
}.

Definition M (A : Type) : Type := conn -> conn * res A.

Definition ret {A} (a : A) : M A := fun c => (c, Ok a).
Definition lift {A} (r : res A) : M A := fun c => (c, r).
Definition bindM {A B} (m : M A) (k : A -> M B) : M B :=
  fun c => match m c with
           | (c', Ok a) => k a c'
           | (c', Raise e) => (c', Raise e)
           end.

Notation "x <- m ;; k" := (bindM m (fun x => k))
  (at level 61, m at next level, right associativity).
Notation "m ;;; k" := (bindM m (fun _ => k))
  (at level 61, right associativity).

Definition connect_to_db (s : store) : conn :=
  {| committed := s; working := s |}.

(** Closing without commit rolls the open transaction back. *)
Definition close_db (c : conn) : store := committed c.

Definition commit : M unit :=
  fun c => ({| committed := working c; working := working c |}, Ok tt).

Definition set_working (c : conn) (w : store) : conn :=
  {| committed := committed c; working := w |}.

Definition create_log_file_table : M unit :=
  fun c =>
    match parsed_files (working c) with
    | Some _ => (c, Ok tt)
    | None =>
        (set_working c {| parsed_files := Some [];
                          tables := tables (working c) |}, Ok tt)
    end.

Definition in_ledger (filename : string) (names : list string) : bool :=
  existsb (String.eqb filename) names.

Definition check_file_already_parsed (filename : string) : M bool :=
  fun c =>
    match parsed_files (working c) with
    | Some names => (c, Ok (in_ledger filename names))
    | None => (c, Raise DatabaseError)
    end.

Definition log_parsed_file (filename : string) : M unit :=
  fun c =>
    match parsed_files (working c) with
    | Some names =>
        (set_working c {| parsed_files := Some (names ++ [filename]);
                          tables := tables (working c) |}, Ok tt)
    | None => (c, Raise DatabaseError)
    end.

(** The server keeps at most 63 bytes of an identifier, cut between
    characters; in UTF-8 a code point below 128 takes one byte and the
    others covered here take two. *)
Fixpoint clip (budget : nat) (s : string) : string :=
  match s with
  | EmptyString => EmptyString
  | String ch s' =>
      let width := if Nat.ltb (nat_of_ascii ch) 128 then 1 else 2 in
      if Nat.leb width budget then String ch (clip (budget - width) s')
      else EmptyString
  end.

(** The name under which the server knows the relation written [name]. *)
Definition relname (name : string) : string := clip 63 name.

Fixpoint find_table (name : string) (ts : list (string * list Row))
  : option (list Row) :=
  match ts with
  | [] => None
  | (n, rows) :: ts' =>
      if String.eqb (relname name) n then Some rows else find_table name ts'
  end.

Fixpoint append_row (name : string) (r : Row) (ts : list (string * list Row))
  : list (string * list Row) :=
  match ts with
  | [] => []
  | (n, rows) :: ts' =>
      if String.eqb (relname name) n then (n, rows ++ [r]) :: ts'
      else (n, rows) :: append_row name r ts'
  end.

(** [CREATE TABLE IF NOT EXISTS {}] with [sql.Identifier(table_name)].  The
    server refuses the zero-length identifier.  Under the ledger's name the
    statement finds the ledger and creates nothing; the name is entered all
    the same, with no row, and no row can follow (see
    [insert_into_testresult_table]). *)
Definition create_testresult_table (table_name : string) : M unit :=
  fun c =>
    if String.eqb table_name "" then (c, Raise DatabaseError)
    else
      match find_table table_name (tables (working c)) with
      | Some _ => (c, Ok tt)
      | None =>
          (set_working c {| parsed_files := parsed_files (working c);
                            tables := tables (working c)
                                        ++ [(relname table_name, [])] |},
           Ok tt)
      end.

(** The name is that of the ledger and the ledger is there: the relation
    the server finds has the one column [file_name]. *)
Definition ledger_taken (table_name : string) (s : store) : bool :=
  String.eqb (relname table_name) "parsed_files" &&
  match parsed_files s with Some _ => true | None => false end.

(** The server's verdict on an [INSERT] of 18 values into the table written
    [table_name]: whether the columns ([varchar(200)], [TIMESTAMP], [float])
    take the values, as psycopg2 passes them. *)
Class Server : Type := { accepts : string -> Row -> bool }.

(** ** The program on a given server *)

Section WithServer.

Context {server : Server}.

(** [INSERT INTO {} (...) VALUES (...)]: refused for the zero-length
    identifier, for the ledger (it has none of the 18 columns), for a table
    that was not created and for a row the columns do not take. *)
Definition insert_into_testresult_table (table_name : string) (values : Row)
  : M unit :=
  fun c =>
    if String.eqb table_name "" then (c, Raise DatabaseError)
    else if ledger_taken table_name (working c) then (c, Raise DatabaseError)
    else
      match find_table table_name (tables (working c)) with
      | Some _ =>
          if accepts table_name values then
            (set_working c {| parsed_files := parsed_files (working c);
                              tables := append_row table_name values
                                          (tables (working c)) |}, Ok tt)
          else (c, Raise DatabaseError)
      | None => (c, Raise DatabaseError)
      end.

(** ** Reading the directory *)

Inductive file_contents : Type :=
| Parses (data : json)
| Malformed.

Definition json_load (f : file_contents) : res json :=
  match f with
  | Parses data => Ok data
  | Malformed => Raise JSONDecodeError
  end.

Definition directory : Type := list (string * file_contents).

(** The body of the [for] loop of [parse_files], with [parsed_data] as the
    accumulator. *)
Fixpoint parse_files_from (files : directory) (parsed_data : list json)
  : M (list json) :=
  match files with
  | [] => ret parsed_data
  | (filename, file) :: rest =>
      seen <- check_file_already_parsed filename ;;
      if seen then parse_files_from rest parsed_data
      else
        data <- lift (json_load file) ;;
        log_parsed_file filename ;;;
        commit ;;;
        parse_files_from rest (parsed_data ++ [data])
  end.

Definition parse_files (dir : directory) : M (list json) :=
  parse_files_from dir [].

(** ** Extracting and loading the rows *)

(** [file["title"][:-13]]. *)
Definition system_key (title : string) : string := Py.drop_suffix 13 title.

(** ["value" in result["results"].get(file["title"][:-13], {})]. *)
Definition has_value (title : string) (result : json) : res bool :=
  Py.bind (Py.subscript result "results") (fun rs =>
  Py.bind (Py.get_or_empty rs (system_key title)) (fun nested =>
  Py.contains "value" nested)).

Definition resolve_app_version (table_name_str : string) (result : json)
  : res json :=
  if negb (String.eqb table_name_str "perfbench") then
    Py.subscript result "app_version"
  else
    Py.bind (Py.subscript result "identifier") (fun ident =>
    Py.bind (Py.split_hyphen ident) (fun parts =>
    Py.bind (Py.last_item parts) (fun v => Ok (JStr v)))).

Definition system_field (file : json) (title group field : string) : res json :=
  Py.bind (Py.subscript file "systems") (fun systems =>
  Py.bind (Py.subscript systems (system_key title)) (fun descr =>
  Py.bind (Py.subscript descr group) (fun g =>
  Py.subscript g field))).

(** The tuple [values], its components evaluated from left to right. *)
Definition build_values (file : json) (title : string) (l : list string)
  (result app_version : json) : res Row :=
  Py.bind (Py.index l 1) (fun l1 =>
  Py.bind (Py.index l 2) (fun l2 =>
  Py.bind (Py.index l 3) (fun l3 =>
  Py.bind (Py.index l 4) (fun l4 =>
  Py.bind (Py.index l 5) (fun l5 =>
  Py.bind (Py.subscript file "last_modified") (fun lm =>
  Py.bind (system_field file title "hardware" "Processor") (fun f_processor =>
  Py.bind (system_field file title "hardware" "Memory") (fun f_memory =>
  Py.bind (system_field file title "hardware" "Disk") (fun f_disk =>
  Py.bind (system_field file title "hardware" "Graphics") (fun f_graphics =>
  Py.bind (system_field file title "hardware" "Network") (fun f_network =>
  Py.bind (system_field file title "software" "OS") (fun f_os =>
  Py.bind (system_field file title "software" "Kernel") (fun f_kernel =>
  Py.bind (Py.subscript result "title") (fun r_title =>
  Py.bind (Py.subscript result "description") (fun r_descr =>
  Py.bind (Py.subscript result "scale") (fun r_scale =>
  Py.bind (Py.subscript result "results") (fun rs =>
  Py.bind (Py.subscript rs (system_key title)) (fun nested =>
  Py.bind (Py.subscript nested "value") (fun v =>
  Ok {| key := JStr title;
        board_type := JStr (l1 ++ "-" ++ l2);
        boot_type := JStr l3;
        release := JStr l4;
        config := JStr l5;
        last_modified := lm;
        processor := f_processor;
        memory := f_memory;
        disk := f_disk;
        graphics := f_graphics;
        network := f_network;
        os := f_os;
        kernel := f_kernel;
        app_title := r_title;
        app_version := app_version;
        test_description := r_descr;
        unit_ := r_scale;
        value := v |}))))))))))))))))))).

(** The row of one entry that passed the ["value"] test. *)
Definition entry_row (file : json) (title : string) (l : list string)
  (table_name_str : string) (result : json) : res Row :=
  Py.bind (resolve_app_version table_name_str result) (fun app_version =>
  build_values file title l result app_version).

(** One iteration of the inner [for] loop. *)
Definition process_result (file : json) (title : string) (l : list string)
  (table_name_str : string) (result : json) : M unit :=
  present <- lift (has_value title result) ;;
  if negb present then ret tt
  else
    values <- lift (entry_row file title l table_name_str result) ;;
    insert_into_testresult_table table_name_str values.

Fixpoint process_results (file : json) (title : string) (l : list string)
  (table_name_str : string) (results : list json) : M unit :=
  match results with
  | [] => ret tt
  | result :: rest =>
      process_result file title l table_name_str result ;;;
      process_results file title l table_name_str rest
  end.

(** [file["title"]], which must be a [str] for [.split] to exist. *)
Definition title_of (file : json) : res string :=
  Py.bind (Py.subscript file "title") (fun t =>
  match t with
  | JStr s => Ok s
  | _ => Raise AttributeError
  end).

(** One iteration of the outer [for] loop. *)
Definition process_file (file : json) : M unit :=
  title <- lift (title_of file) ;;
  let l := Py.split "-"%char title in
  table_name_str <- lift (Py.index l 0) ;;
  create_testresult_table table_name_str ;;;
  results <- lift (Py.bind (Py.subscript file "results") Py.values) ;;
  process_results file title l table_name_str results.

Fixpoint process_parsed_data (parsed_data : list json) : M unit :=
  match parsed_data with
  | [] => ret tt
  | file :: rest => process_file file ;;; process_parsed_data rest
  end.

(** ** The driver *)

(** The [try] block of [main]. *)
Definition main_body (dir : directory) : M unit :=
  create_log_file_table ;;;
  commit ;;;
  parsed_data <- parse_files dir ;;
  process_parsed_data parsed_data ;;;
  commit.

(** [main] on a database whose committed contents are [s]: the contents the
    database is left with once the connection is closed, and how the run
    ended. *)
Definition main (s : store) (dir : directory) : store * res unit :=
  let (c, r) := main_body dir (connect_to_db s) in
  (close_db c, r).

(** ** Definitions used to state the properties *)

(** The working store [s'] is [s] with [added] appended to table [tbl],
    every other table and the ledger left alone. *)
Definition grows (tbl : string) (added : list Row) (s s' : store) : Prop :=
  parsed_files s' = parsed_files s /\
  forall n, find_table n (tables s') =
            if String.eqb (relname n) (relname tbl)
            then option_map (fun rows => rows ++ added) (find_table n (tables s))
            else find_table n (tables s).

(** What [create_testresult_table] leaves: the table is there, with the rows
    it had, or empty. *)
Definition rows_or_empty (tbl : string) (s : store) : list Row :=
  match find_table tbl (tables s) with
  | Some rows => rows
  | None => []
  end.

(** The table written [tbl] takes the row on the store [s]. *)
Definition storable (tbl : string) (s : store) (row : Row) : bool :=
  negb (String.eqb tbl "") && negb (ledger_taken tbl s) && accepts tbl row.

(** The rows the inner loop stores, in order, and how the loop ends: an
    entry without ["value"] is passed over, an entry with it gives its row,
    or the exception met while the row is put together, or the refusal of
    the row by the server ([takes] tells which rows are taken). *)
Fixpoint extract (file : json) (title : string) (l : list string)
  (tbl : string) (takes : Row -> bool) (entries : list json)
  : list Row * res unit :=
  match entries with
  | [] => ([], Ok tt)
  | e :: rest =>
      match has_value title e with
      | Raise x => ([], Raise x)
      | Ok false => extract file title l tbl takes rest
      | Ok true =>
          match entry_row file title l tbl e with
          | Raise x => ([], Raise x)
          | Ok row =>
              if takes row then
                let (rows, r) := extract file title l tbl takes rest in
                (row :: rows, r)
              else ([], Raise DatabaseError)
          end
      end
  end.

(** The loop of [parse_files] as a function of the ledger: the names the
    ledger holds when the loop ends, and the loop's result. *)
Fixpoint scan (files : directory) (names : list string) (acc : list json)
  : list string * res (list json) :=
  match files with
  | [] => (names, Ok acc)
  | (filename, file) :: rest =>
      if in_ledger filename names then scan rest names acc
      else match json_load file with
           | Raise x => (names, Raise x)
           | Ok data => scan rest (names ++ [filename]) (acc ++ [data])
           end
  end.

Definition ledger_names (s : store) : list string :=
  match parsed_files s with
  | Some names => names
  | None => []
  end.

Definition with_ledger (names : list string) (s : store) : store :=
  {| parsed_files := Some names; tables := tables s |}.

(** The seven facts of a system descriptor read by [build_values]. *)
Definition descriptor_fields : list (string * string) :=
  [("hardware", "Processor"); ("hardware", "Memory"); ("hardware", "Disk");
   ("hardware", "Graphics"); ("hardware", "Network");
   ("software", "OS"); ("software", "Kernel")].

(** ** Sample documents *)

Definition sample_title : string :=
  "diskbench-ubuntu-22.04-uefi-default-2024.json".

Definition perf_title : string :=
  "perfbench-ubuntu-22.04-uefi-default-2024.json".


Definition sample_system : json :=
  JDict [("hardware",
          JDict [("Processor", JStr "ARMv8 Cortex-A72");
                 ("Memory", JStr "8GB");
                 ("Disk", JStr "64GB SD");
                 ("Graphics", JStr "V3D 4.2");
                 ("Network", JStr "Broadcom")]);
         ("software",
          JDict [("OS", JStr "Ubuntu 22.04");
                 ("Kernel", JStr "5.15.0")])].

(** A result entry whose nested [results] mapping is [nested]. *)
Definition sample_entry (name : string) (nested : list (string * json))
  : json :=
  JDict [("title", JStr name);
         ("app_version", JStr "2.4.56");
         ("identifier", JStr "pts/apache-2.0.1");
         ("description", JStr "Concurrent Requests: 100");
         ("scale", JStr "Requests Per Second");
         ("results", JDict nested)].

Definition sample_doc (title : string) (systems entries : list (string * json))
  : json :=
  JDict [("title", JStr title);
         ("last_modified", JStr "2024-01-01 10:00:00");
         ("systems", JDict systems);
         ("results", JDict entries)].

Definition with_value (title : string) (v : json) : list (string * json) :=
  [(system_key title, JDict [("value", v)])].

Definition without_value (title : string) : list (string * json) :=
  [(system_key title, JDict [("raw_values", JList [])])].

Definition empty_db : store := {| parsed_files := None; tables := [] |}.

Definition fresh_conn : conn :=
  connect_to_db {| parsed_files := Some []; tables := [] |}.

(** The entry's nested result for the system key has a ["value"] that is a
    number. *)
Definition has_numeric_value (title : string) (e : json) : bool :=
  match Py.bind (Py.subscript e "results") (fun rs =>
        Py.bind (Py.get_or_empty rs (system_key title)) (fun nested =>
        Py.subscript nested "value")) with
  | Ok v => is_numeric v
  | Raise _ => false
  end.


Definition perf_doc : json :=
  sample_doc perf_title [(system_key perf_title, sample_system)]
    [("r1", sample_entry "Apache" (with_value perf_title (JNum 1234 0)))].

Definition null_entry : json :=
  sample_entry "Apache" (with_value sample_title JNull).

Definition null_doc : json :=
  sample_doc sample_title [(system_key sample_title, sample_system)]
    [("r1", null_entry)].



Definition good_entry : json :=
  sample_entry "Apache" (with_value sample_title (JNum 1234 0)).

Definition good_doc : json :=
  sample_doc sample_title [(system_key sample_title, sample_system)]
    [("r1", good_entry);
     ("r2", sample_entry "Nginx" (without_value sample_title))].

(** The committed store once [parse_files] has gone through [dir]. *)
Definition after_parse (s : store) (dir : directory) : store :=
  with_ledger (fst (scan dir (ledger_names s) [])) s.

Definition net_title : string :=
  "netbench-ubuntu-22.04-uefi-default-2024.json".

Definition net_doc : json :=
  sample_doc net_title [(system_key net_title, sample_system)]
    [("r1", sample_entry "iperf" (with_value net_title (JNum 941 0)));
     ("r2", sample_entry "ping" (without_value net_title))].

(** A document whose [systems] mapping has no entry for the system key. *)
Definition bad_doc : json :=
  sample_doc sample_title [] [("r1", good_entry)].

(** ** Definitions used to state further properties *)

(** Every row of [s] is still in [s'], in its table and at its place. *)
Definition keeps_rows (s s' : store) : Prop :=
  forall n rows,
    find_table n (tables s) = Some rows ->
    exists more, find_table n (tables s') = Some (rows ++ more).

(** The entry passes the test of the inner loop. *)
Definition valued (title : string) (e : json) : bool :=
  match has_value title e with
  | Ok true => true
  | _ => false
  end.

(** The exceptions raised by reading a parsed document. *)
Definition data_error (x : exn) : bool :=
  match x with
  | KeyError | IndexError | TypeError | AttributeError => true
  | JSONDecodeError | DatabaseError => false
  end.

(** A directory all of whose files parse. *)
Definition parsed_dir (entries : list (string * json)) : directory :=
  map (fun p => (fst p, Parses (snd p))) entries.

Definition has_hyphen (s : string) : bool :=
  existsb (Ascii.eqb "-"%char) (list_ascii_of_string s).




(** ** A server for the examples *)

Definition digit_between (lo hi : nat) (ch : ascii) : bool :=
  Nat.leb (48 + lo) (nat_of_ascii ch) && Nat.leb (nat_of_ascii ch) (48 + hi).

(** A string of at most 200 characters, none of them NUL, or [null]. *)
Definition plain_text (v : json) : bool :=
  match v with
  | JNull => true
  | JStr s =>
      Nat.leb (String.length s) 200 &&
      forallb (fun ch => negb (Ascii.eqb ch zero)) (list_ascii_of_string s)
  | _ => false
  end.

(** [YYYY-MM-DD hh:mm:ss] with a year from 1000 to 2999, a day up to 28,
    or [null]. *)
Definition plain_timestamp (v : json) : bool :=
  match v with
  | JNull => true
  | JStr (String y1 (String y2 (String y3 (String y4 (String a
         (String m1 (String m2 (String b (String d1 (String d2 (String sp
         (String h1 (String h2 (String p (String n1 (String n2 (String q
         (String s1 (String s2 EmptyString))))))))))))))))))) =>
      digit_between 1 2 y1 && digit_between 0 9 y2 && digit_between 0 9 y3 &&
      digit_between 0 9 y4 && Ascii.eqb a "-" &&
      ((Ascii.eqb m1 "0" && digit_between 1 9 m2) ||
       (Ascii.eqb m1 "1" && digit_between 0 2 m2)) &&
      Ascii.eqb b "-" &&
      ((Ascii.eqb d1 "0" && digit_between 1 9 d2) ||
       (Ascii.eqb d1 "1" && digit_between 0 9 d2) ||
       (Ascii.eqb d1 "2" && digit_between 0 8 d2)) &&
      Ascii.eqb sp " " &&
      ((digit_between 0 1 h1 && digit_between 0 9 h2) ||
       (Ascii.eqb h1 "2" && digit_between 0 3 h2)) &&
      Ascii.eqb p ":" && digit_between 0 5 n1 && digit_between 0 9 n2 &&
      Ascii.eqb q ":" && digit_between 0 5 s1 && digit_between 0 9 s2
  | _ => false
  end.

(** An integer of at most 15 digits, or [null]. *)
Definition plain_number (v : json) : bool :=
  match v with
  | JNull => true
  | JNum m e => Z.eqb e 0 && Z.leb (Z.abs m) 999999999999999
  | _ => false
  end.

(** A name of at most 63 lower-case letters, digits and underscores that is
    not the ledger's and does not start with [pg_]. *)
Definition plain_name (s : string) : bool :=
  negb (String.eqb s "") && Nat.leb (String.length s) 63 &&
  forallb (fun ch => digit_between 0 9 ch ||
                     (Nat.leb 97 (nat_of_ascii ch) && Nat.leb (nat_of_ascii ch) 122) ||
                     Ascii.eqb ch "_")
          (list_ascii_of_string s) &&
  negb (String.prefix "pg_" s) && negb (String.eqb s "parsed_files").

(** Rows every server takes: text that fits its column, a timestamp in ISO
    form, a small number, under a plain name. *)
Definition plain_row (name : string) (r : Row) : bool :=
  plain_name name &&
  plain_text (key r) && plain_text (board_type r) && plain_text (boot_type r) &&
  plain_text (release r) && plain_text (config r) &&
  plain_timestamp (last_modified r) &&
  plain_text (processor r) && plain_text (memory r) && plain_text (disk r) &&
  plain_text (graphics r) && plain_text (network r) && plain_text (os r) &&
  plain_text (kernel r) && plain_text (app_title r) &&
  plain_text (app_version r) && plain_text (test_description r) &&
  plain_text (unit_ r) && plain_number (value r).

(** ** Facts about the Python primitives *)

Lemma split_cons (sep : ascii) (s : string) :
  exists p ps, Py.split sep s = p :: ps.
Proof.
  induction s as [|c s IH]; simpl.
  - now exists EmptyString, [].
  - destruct (Ascii.eqb c sep).
    + now exists EmptyString, (Py.split sep s).
    + destruct IH as (p & ps & ->). now exists (String c p), ps.
Qed.

Lemma index_length {A} (l : list A) (i : nat) :
  i < length l -> exists a, Py.index l i = Ok a /\ nth_error l i = Some a.
Proof.
  intros Hi. unfold Py.index.
  destruct (nth_error l i) as [a|] eqn:E.
  - now exists a.
  - apply nth_error_None in E. lia.
Qed.

Lemma index_short {A} (l : list A) (i : nat) :
  length l <= i -> Py.index l i = Raise IndexError.
Proof.
  intros Hi. unfold Py.index.
  now rewrite (proj2 (nth_error_None l i) Hi).
Qed.

Lemma index_ok {A} (l : list A) (i : nat) (a : A) :
  Py.index l i = Ok a -> nth_error l i = Some a /\ i < length l.
Proof.
  unfold Py.index. destruct (nth_error l i) as [b|] eqn:E; [|discriminate].
  intros [= ->]. split; [reflexivity|].
  apply nth_error_Some. congruence.
Qed.

Lemma last_item_last (l : list string) (v : string) :
  Py.last_item l = Ok v -> v = last l ""%string.
Proof.
  unfold Py.last_item.
  destruct l as [|a l'] using rev_ind; [discriminate|].
  rewrite rev_app_distr. simpl. intros [= ->].
  now rewrite last_last.
Qed.

(** ** Facts about the store *)

Lemma grows_refl (tbl : string) (s : store) : grows tbl [] s s.
Proof.
  split; [reflexivity|]. intros n.
  destruct (String.eqb (relname n) (relname tbl)); [|reflexivity].
  destruct (find_table n (tables s)); simpl; [|reflexivity].
  now rewrite app_nil_r.
Qed.

Lemma grows_trans (tbl : string) (a1 a2 : list Row) (s1 s2 s3 : store) :
  grows tbl a1 s1 s2 -> grows tbl a2 s2 s3 -> grows tbl (a1 ++ a2) s1 s3.
Proof.
  intros [L1 T1] [L2 T2]. split; [congruence|]. intros n.
  rewrite T2, T1. destruct (String.eqb (relname n) (relname tbl)); [|reflexivity].
  destruct (find_table n (tables s1)); simpl; [|reflexivity].
  now rewrite app_assoc.
Qed.

Lemma find_table_append_row (n tbl : string) (r : Row) ts :
  find_table n (append_row tbl r ts) =
  if String.eqb (relname n) (relname tbl)
  then option_map (fun rows => rows ++ [r]) (find_table n ts)
  else find_table n ts.
Proof.
  induction ts as [|[m rows] ts IH]; simpl.
  - now destruct (String.eqb (relname n) (relname tbl)).
  - destruct (String.eqb (relname tbl) m) eqn:Etm; simpl.
    + apply String.eqb_eq in Etm. subst m.
      destruct (String.eqb (relname n) (relname tbl)) eqn:Ent; reflexivity.
    + destruct (String.eqb (relname n) m) eqn:Enm.
      * apply String.eqb_eq in Enm. subst m.
        rewrite String.eqb_sym in Etm. now rewrite Etm.
      * exact IH.
Qed.

Lemma find_table_new (n tbl : string) ts :
  find_table tbl ts = None ->
  find_table n (ts ++ [(relname tbl, [])]) =
  if String.eqb (relname n) (relname tbl) then Some [] else find_table n ts.
Proof.
  induction ts as [|[m rows] ts IH]; simpl; intros H.
  - now destruct (String.eqb (relname n) (relname tbl)).
  - destruct (String.eqb (relname tbl) m) eqn:Etm; [discriminate|].
    destruct (String.eqb (relname n) m) eqn:Enm.
    + apply String.eqb_eq in Enm. subst m.
      rewrite String.eqb_sym in Etm. now rewrite Etm.
    + now apply IH.
Qed.

Lemma create_testresult_table_spec (tbl : string) (c : conn) :
  tbl <> "" ->
  exists c',
    create_testresult_table tbl c = (c', Ok tt) /\
    committed c' = committed c /\
    parsed_files (working c') = parsed_files (working c) /\
    find_table tbl (tables (working c')) = Some (rows_or_empty tbl (working c)) /\
    forall n, relname n <> relname tbl ->
              find_table n (tables (working c')) = find_table n (tables (working c)).
Proof.
  intros Hne. apply String.eqb_neq in Hne.
  unfold create_testresult_table, rows_or_empty. rewrite Hne.
  destruct (find_table tbl (tables (working c))) as [rows|] eqn:E.
  - exists c. repeat split; auto.
  - eexists. split; [reflexivity|]. simpl. repeat split.
    + rewrite (find_table_new tbl tbl _ E). now rewrite String.eqb_refl.
    + intros n Hn. rewrite (find_table_new n tbl _ E).
      apply String.eqb_neq in Hn. now rewrite Hn.
Qed.

Lemma create_testresult_table_empty (c : conn) :
  create_testresult_table "" c = (c, Raise DatabaseError).
Proof. reflexivity. Qed.

Lemma insert_spec (tbl : string) (row : Row) (c : conn) (rows : list Row) :
  find_table tbl (tables (working c)) = Some rows ->
  storable tbl (working c) row = true ->
  exists c',
    insert_into_testresult_table tbl row c = (c', Ok tt) /\
    committed c' = committed c /\
    grows tbl [row] (working c) (working c').
Proof.
  intros E Hs. unfold storable in Hs.
  apply andb_prop in Hs. destruct Hs as [Hs Ha].
  apply andb_prop in Hs. destruct Hs as [Hn Hl].
  apply negb_true_iff in Hn, Hl.
  unfold insert_into_testresult_table. rewrite Hn, Hl, E, Ha.
  eexists. split; [reflexivity|]. simpl. split; [reflexivity|].
  split; [reflexivity|]. intros n. simpl. apply find_table_append_row.
Qed.

Lemma insert_refused (tbl : string) (row : Row) (c : conn) :
  storable tbl (working c) row = false ->
  insert_into_testresult_table tbl row c = (c, Raise DatabaseError).
Proof.
  intros Hs. unfold storable in Hs. unfold insert_into_testresult_table.
  destruct (String.eqb tbl ""); [reflexivity|].
  destruct (ledger_taken tbl (working c)); [reflexivity|].
  simpl in Hs. rewrite Hs.
  destruct (find_table tbl (tables (working c))); reflexivity.
Qed.

Lemma storable_same_ledger (tbl : string) (s s' : store) (row : Row) :
  parsed_files s' = parsed_files s -> storable tbl s' row = storable tbl s row.
Proof. intros E. unfold storable, ledger_taken. now rewrite E. Qed.

(** ** The inner loop as a function of the entries *)

Lemma process_result_skip file title l tbl e c :
  has_value title e = Ok false ->
  process_result file title l tbl e c = (c, Ok tt).
Proof.
  intros H. unfold process_result, bindM, lift. now rewrite H.
Qed.

Lemma process_results_extract file title l tbl entries :
  forall c rows0,
    find_table tbl (tables (working c)) = Some rows0 ->
    exists c',
      process_results file title l tbl entries c =
        (c', snd (extract file title l tbl (storable tbl (working c)) entries)) /\
      committed c' = committed c /\
      grows tbl (fst (extract file title l tbl (storable tbl (working c)) entries))
            (working c) (working c').
Proof.
  induction entries as [|e rest IH]; intros c rows0 Hc; simpl.
  - exists c. repeat split; auto. apply grows_refl.
  - unfold bindM at 1. unfold process_result, bindM, lift.
    destruct (has_value title e) as [[|]|x] eqn:Hv; simpl.
    + destruct (entry_row file title l tbl e) as [row|x] eqn:Hr; simpl.
      * destruct (storable tbl (working c) row) eqn:Hst.
        -- destruct (insert_spec tbl row c rows0 Hc Hst) as (c1 & -> & Hcm & Hg).
           assert (Hc1 : find_table tbl (tables (working c1)) = Some (rows0 ++ [row])).
           { destruct Hg as [_ Hg]. rewrite Hg, String.eqb_refl, Hc. reflexivity. }
           destruct (IH c1 _ Hc1) as (c' & -> & Hcm' & Hg').
           assert (Hsame : storable tbl (working c1) = storable tbl (working c)).
           { destruct Hg as [Hl _]. unfold storable, ledger_taken. now rewrite Hl. }
           rewrite Hsame in *.
           destruct (extract file title l tbl (storable tbl (working c)) rest)
             as [rows r]. simpl in *.
           exists c'. split; [reflexivity|]. split; [congruence|].
           exact (grows_trans tbl [row] rows _ _ _ Hg Hg').
        -- rewrite (insert_refused tbl row c Hst).
           exists c. repeat split; auto. apply grows_refl.
      * exists c. repeat split; auto. apply grows_refl.
    + apply (IH c rows0 Hc).
    + exists c. repeat split; auto. apply grows_refl.
Qed.

(** [process_file] on a document whose title is a [str]: the table of the
    first title segment is created, then the entries are walked. *)
Lemma process_file_unfold file title c :
  title_of file = Ok title ->
  exists tbl ps,
    Py.split "-"%char title = tbl :: ps /\
    process_file file c =
      match create_testresult_table tbl c with
      | (c1, Ok _) =>
          match Py.bind (Py.subscript file "results") Py.values with
          | Ok results => process_results file title (tbl :: ps) tbl results c1
          | Raise x => (c1, Raise x)
          end
      | (c1, Raise x) => (c1, Raise x)
      end.
Proof.
  intros Ht. destruct (split_cons "-"%char title) as (tbl & ps & Hs).
  exists tbl, ps. split; [exact Hs|].
  unfold process_file, bindM, lift. rewrite Ht, Hs. simpl.
  destruct (create_testresult_table tbl c) as [c1 [[]|x]]; [|reflexivity].
  destruct (Py.bind (Py.subscript file "results") Py.values); reflexivity.
Qed.



(** A document whose first title segment is empty stops at the creation of
    its table, with the store as it was. *)
Lemma process_file_empty_name file title ps c :
  title_of file = Ok title ->
  Py.split "-"%char title = "" :: ps ->
  process_file file c = (c, Raise DatabaseError).
Proof.
  intros Ht Hs.
  destruct (process_file_unfold file title c Ht) as (tbl & ps' & Hs' & Hp).
  rewrite Hs in Hs'. injection Hs' as <- <-.
  now rewrite Hp, create_testresult_table_empty.
Qed.

(** ** The assembled row *)

Ltac bind_ok H :=
  match type of H with
  | Py.bind ?r _ = Ok _ =>
      let E := fresh "E" in
      destruct r eqn:E; simpl in H; [|discriminate H]
  end.

Lemma index_raise {A} (l : list A) (i : nat) (x : exn) :
  Py.index l i = Raise x -> x = IndexError.
Proof.
  unfold Py.index. destruct (nth_error l i); [discriminate|]. now intros [= <-].
Qed.

(** What a row assembled by [build_values] holds. *)
Lemma build_values_inv file title l e av row :
  build_values file title l e av = Ok row ->
  (exists l1 l2 l3 l4 l5,
      nth_error l 1 = Some l1 /\ nth_error l 2 = Some l2 /\
      nth_error l 3 = Some l3 /\ nth_error l 4 = Some l4 /\
      nth_error l 5 = Some l5 /\
      board_type row = JStr (l1 ++ "-" ++ l2) /\
      boot_type row = JStr l3 /\ release row = JStr l4 /\
      config row = JStr l5) /\
  key row = JStr title /\
  app_version row = av /\
  Py.subscript file "last_modified" = Ok (last_modified row) /\
  system_field file title "hardware" "Processor" = Ok (processor row) /\
  system_field file title "hardware" "Memory" = Ok (memory row) /\
  system_field file title "hardware" "Disk" = Ok (disk row) /\
  system_field file title "hardware" "Graphics" = Ok (graphics row) /\
  system_field file title "hardware" "Network" = Ok (network row) /\
  system_field file title "software" "OS" = Ok (os row) /\
  system_field file title "software" "Kernel" = Ok (kernel row) /\
  Py.subscript e "title" = Ok (app_title row) /\
  Py.subscript e "description" = Ok (test_description row) /\
  Py.subscript e "scale" = Ok (unit_ row) /\
  exists rs nested,
    Py.subscript e "results" = Ok rs /\
    Py.subscript rs (system_key title) = Ok nested /\
    Py.subscript nested "value" = Ok (value row).
Proof.
  unfold build_values. intros H.
  repeat bind_ok H. injection H as <-. simpl.
  repeat match goal with
         | E : Py.index _ _ = Ok _ |- _ => apply index_ok in E; destruct E as [E _]
         end.
  split; [do 5 eexists; repeat split; eassumption|].
  repeat split; try reflexivity.
  do 2 eexists. repeat split; eassumption.
Qed.


(** ** The value gate *)

(** C9: an entry whose nested [results] mapping has no entry for the system
    key is passed over: [.get] answers the empty mapping, the test for
    ["value"] fails, no row is inserted and nothing is raised, the same as
    for an entry whose mapping for the key is there without a ["value"]. *)
Theorem missing_system_entry_skipped file title l tbl e d c :
  Py.subscript e "results" = Ok (JDict d) ->
  Py.lookup (system_key title) d = None ->
  Py.get_or_empty (JDict d) (system_key title) = Ok (JDict []) /\
  has_value title e = Ok false /\
  process_result file title l tbl e c = (c, Ok tt) /\
  forall e' d' nested,
    Py.subscript e' "results" = Ok (JDict d') ->
    Py.lookup (system_key title) d' = Some (JDict nested) ->
    Py.lookup "value" nested = None ->
    process_result file title l tbl e' c = process_result file title l tbl e c.
Proof.
  intros He Hd.
  assert (Hg : Py.get_or_empty (JDict d) (system_key title) = Ok (JDict []))
    by (simpl; now rewrite Hd).
  assert (Hv : has_value title e = Ok false).
  { unfold has_value. rewrite He. simpl. rewrite Hd. reflexivity. }
  repeat split; auto using process_result_skip.
  intros e' d' nested He' Hd' Hn.
  rewrite !process_result_skip; auto.
  unfold has_value. rewrite He'. simpl. rewrite Hd'. simpl. now rewrite Hn.
Qed.

(** ** Creation of the family table *)




(** ** The version column *)

(** C6: the [app_version] column of an assembled row is the last
    hyphen-separated segment of the entry's [identifier] when the table name
    is ["perfbench"], and the entry's own [app_version] otherwise. *)
Theorem app_version_by_family file title l tbl e row :
  entry_row file title l tbl e = Ok row ->
  (tbl = "perfbench" ->
   exists ident,
     Py.subscript e "identifier" = Ok (JStr ident) /\
     app_version row = JStr (last (Py.split "-"%char ident) "")) /\
  (tbl <> "perfbench" ->
   Py.subscript e "app_version" = Ok (app_version row)).
Proof.
  unfold entry_row, resolve_app_version. intros H.
  destruct (String.eqb tbl "perfbench") eqn:Et; simpl in H.
  - apply String.eqb_eq in Et. split; [intros _|congruence].
    repeat bind_ok H.
    apply build_values_inv in H. destruct H as (_ & _ & Hav & _).
    repeat bind_ok E. injection E as <-.
    destruct a0 as [| | |ident| |]; try discriminate E1.
    injection E1 as <-.
    exists ident. split; [reflexivity|].
    rewrite Hav. f_equal. now apply last_item_last.
  - apply String.eqb_neq in Et. split; [congruence|intros _].
    bind_ok H.
    apply build_values_inv in H. destruct H as (_ & _ & Hav & _).
    now rewrite Hav.
Qed.

(** ** Title segments *)

Lemma process_file_other_tables file title tbl ps c c' r :
  title_of file = Ok title ->
  Py.split "-"%char title = tbl :: ps ->
  process_file file c = (c', r) ->
  committed c' = committed c /\
  parsed_files (working c') = parsed_files (working c) /\
  forall n, relname n <> relname tbl ->
            find_table n (tables (working c')) = find_table n (tables (working c)).
Proof.
  intros Ht Hs Hrun.
  destruct (String.eqb tbl "") eqn:Ee.
  - apply String.eqb_eq in Ee. subst tbl.
    rewrite (process_file_empty_name file title ps c Ht Hs) in Hrun.
    injection Hrun as <- _. auto.
  - apply String.eqb_neq in Ee.
    destruct (process_file_unfold file title c Ht) as (tbl' & ps' & Hs' & Hp).
    rewrite Hs in Hs'. injection Hs' as <- <-.
    destruct (create_testresult_table_spec tbl c Ee)
      as (c1 & Hc & Hcm & Hl & Hf & Ho).
    rewrite Hp, Hc in Hrun.
    destruct (Py.bind (Py.subscript file "results") Py.values) as [results|x].
    + destruct (process_results_extract file title (tbl :: ps) tbl results c1 _ Hf)
        as (c2 & Hrun2 & Hcm2 & Hl2 & Hg).
      rewrite Hrun2 in Hrun. injection Hrun as <- _.
      split; [congruence|]. split; [congruence|].
      intros n Hn. rewrite Hg. apply String.eqb_neq in Hn as Hn'. rewrite Hn'.
      now apply Ho.
    + injection Hrun as <- _. auto.
Qed.









(** ** Which entries give a row *)

Lemma has_value_dict title e d nested :
  Py.subscript e "results" = Ok (JDict d) ->
  Py.get_or_empty (JDict d) (system_key title) = Ok (JDict nested) ->
  has_value title e =
  Ok (match Py.lookup "value" nested with Some _ => true | None => false end).
Proof.
  intros He Hg. unfold has_value. rewrite He.
  unfold Py.bind at 1. rewrite Hg. reflexivity.
Qed.

(** C5, as the code has it: the gate is the presence of the key ["value"] in
    the entry's nested result for the system key; the code does not look at
    the value under it.  Without the key the entry is passed over, no row
    and no error.  With it the row is assembled, holding that value, and
    handed to the [INSERT], or assembling it raises and nothing is handed
    over.  The [INSERT] stores the row when the server takes it and raises,
    storing nothing, when the server refuses it. *)
Theorem row_iff_value_key file title l tbl e d nested c :
  Py.subscript e "results" = Ok (JDict d) ->
  Py.get_or_empty (JDict d) (system_key title) = Ok (JDict nested) ->
  (Py.lookup "value" nested = None ->
   process_result file title l tbl e c = (c, Ok tt)) /\
  (forall v,
      Py.lookup "value" nested = Some v ->
      match entry_row file title l tbl e with
      | Ok row =>
          value row = v /\
          process_result file title l tbl e c =
            insert_into_testresult_table tbl row c
      | Raise x => process_result file title l tbl e c = (c, Raise x)
      end) /\
  (forall row rows0,
      find_table tbl (tables (working c)) = Some rows0 ->
      (storable tbl (working c) row = true ->
       exists c',
         insert_into_testresult_table tbl row c = (c', Ok tt) /\
         committed c' = committed c /\
         grows tbl [row] (working c) (working c')) /\
      (storable tbl (working c) row = false ->
       insert_into_testresult_table tbl row c = (c, Raise DatabaseError))).
Proof.
  intros He Hg. split; [|split].
  - intros Hn. apply process_result_skip.
    rewrite (has_value_dict title e d nested He Hg). now rewrite Hn.
  - intros v Hv.
    assert (Hhas : has_value title e = Ok true).
    { rewrite (has_value_dict title e d nested He Hg). now rewrite Hv. }
    unfold process_result, bindM, lift. rewrite Hhas. simpl.
    destruct (entry_row file title l tbl e) as [row|x] eqn:Hr; [|reflexivity].
    split; [|reflexivity].
    unfold entry_row in Hr. bind_ok Hr. apply build_values_inv in Hr.
    destruct Hr as (_ & _ & _ & _ & _ & _ & _ & _ & _ & _ & _ & _ & _ & _
                    & rs & nested' & Hrs & Hk & Hval).
    rewrite He in Hrs. injection Hrs as <-.
    simpl in Hg, Hk.
    destruct (Py.lookup (system_key title) d) as [x|]; [|discriminate].
    injection Hk as <-. injection Hg as ->.
    simpl in Hval. rewrite Hv in Hval. congruence.
  - intros row rows0 Hc. split.
    + intros Hst. now apply (insert_spec tbl row c rows0).
    + intros Hst. now apply insert_refused.
Qed.

(** ** The loop over the directory *)

Lemma in_ledger_app (n : string) (names more : list string) :
  in_ledger n (names ++ more) = in_ledger n names || in_ledger n more.
Proof. unfold in_ledger. apply existsb_app. Qed.

Lemma in_ledger_self (n : string) (names : list string) :
  in_ledger n (names ++ [n]) = true.
Proof.
  rewrite in_ledger_app. simpl. rewrite String.eqb_refl.
  now rewrite orb_true_r.
Qed.

Lemma parse_files_from_scan files :
  forall acc c names,
    parsed_files (working c) = Some names ->
    exists c',
      parse_files_from files acc c = (c', snd (scan files names acc)) /\
      working c' = with_ledger (fst (scan files names acc)) (working c) /\
      (committed c = working c -> committed c' = working c').
Proof.
  induction files as [|[fn f] rest IH]; intros acc c names Hl; simpl.
  - exists c. split; [reflexivity|]. split; [|auto].
    unfold with_ledger. destruct (working c); simpl in *. now subst.
  - unfold bindM at 1. unfold check_file_already_parsed. rewrite Hl.
    destruct (in_ledger fn names).
    + apply IH, Hl.
    + unfold bindM at 1. unfold lift.
      destruct f as [data|]; simpl.
      * unfold bindM at 1. unfold log_parsed_file. rewrite Hl.
        unfold bindM at 1. unfold commit. simpl.
        match goal with
        | |- exists c', parse_files_from rest _ ?c1 = _ /\ _ =>
            destruct (IH (acc ++ [data]) c1 (names ++ [fn]) eq_refl)
              as (c' & Hrun & Hw & Hs)
        end.
        exists c'. split; [exact Hrun|]. split; [exact Hw|].
        intros _. now apply Hs.
      * exists c. split; [reflexivity|]. split; [|auto].
        unfold with_ledger. destruct (working c); simpl in *. now subst.
Qed.

Lemma scan_grows files :
  forall names acc, exists added, fst (scan files names acc) = names ++ added.
Proof.
  induction files as [|[fn f] rest IH]; intros names acc; simpl.
  - exists []. now rewrite app_nil_r.
  - destruct (in_ledger fn names); [apply IH|].
    destruct f as [data|]; simpl.
    + destruct (IH (names ++ [fn]) (acc ++ [data])) as (added & ->).
      exists (fn :: added). now rewrite <- app_assoc.
    + exists []. now rewrite app_nil_r.
Qed.

Lemma scan_keeps (files : directory) (names : list string) (acc : list json)
  (n : string) :
  in_ledger n names = true -> in_ledger n (fst (scan files names acc)) = true.
Proof.
  intros H. destruct (scan_grows files names acc) as (added & ->).
  rewrite in_ledger_app, H. reflexivity.
Qed.

(** A second pass over the same files, from a ledger with the names the
    first pass left, records nothing and parses nothing. *)
Lemma scan_rerun files :
  forall names acc names2 acc2,
    (forall n, in_ledger n names2 = in_ledger n (fst (scan files names acc))) ->
    scan files names2 acc2 =
    (names2, match snd (scan files names acc) with
             | Ok _ => Ok acc2
             | Raise x => Raise x
             end).
Proof.
  induction files as [|[fn f] rest IH]; intros names acc names2 acc2 Hsame;
    simpl in *; [reflexivity|].
  destruct (in_ledger fn names) eqn:Hseen.
  - rewrite Hsame, (scan_keeps rest names acc fn Hseen).
    now apply IH.
  - destruct f as [data|]; simpl in *.
    + rewrite Hsame, (scan_keeps rest _ _ fn (in_ledger_self fn names)).
      now apply IH.
    + now rewrite Hsame, Hseen.
Qed.

Lemma scan_docs files :
  forall names acc docs,
    snd (scan files names acc) = Ok docs ->
    forall d, In d docs ->
              In d acc \/
              exists fn, In (fn, Parses d) files /\ in_ledger fn names = false.
Proof.
  induction files as [|[fn f] rest IH]; intros names acc docs H d Hd; simpl in *.
  - injection H as <-. now left.
  - destruct (in_ledger fn names) eqn:Hseen.
    + destruct (IH _ _ _ H d Hd) as [Ha|(fn' & Hin & Hn)]; [now left|].
      right. exists fn'. auto.
    + destruct f as [data|]; simpl in *; [|discriminate].
      destruct (IH _ _ _ H d Hd) as [Ha|(fn' & Hin & Hn)].
      * apply in_app_or in Ha. destruct Ha as [Ha|[<-|[]]]; [now left|].
        right. exists fn. auto.
      * right. exists fn'. split; [auto|].
        rewrite in_ledger_app in Hn. now apply orb_false_elim in Hn.
Qed.

Lemma scan_all_seen files :
  forall names acc,
    (forall fn f, In (fn, f) files -> in_ledger fn names = true) ->
    scan files names acc = (names, Ok acc).
Proof.
  induction files as [|[fn f] rest IH]; intros names acc H; simpl;
    [reflexivity|].
  rewrite (H fn f (or_introl eq_refl)). apply IH.
  intros fn' f' Hin. apply (H fn' f'). now right.
Qed.

Lemma scan_app pre post :
  forall names acc,
    scan (pre ++ post) names acc =
    match snd (scan pre names acc) with
    | Ok acc1 => scan post (fst (scan pre names acc)) acc1
    | Raise x => (fst (scan pre names acc), Raise x)
    end.
Proof.
  induction pre as [|[fn f] pre IH]; intros names acc; simpl; [reflexivity|].
  destruct (in_ledger fn names); [apply IH|].
  destruct f as [data|]; simpl; [apply IH|reflexivity].
Qed.

(** ** The loop over the documents *)

Lemma process_file_frame file c c' r :
  process_file file c = (c', r) ->
  committed c' = committed c /\
  parsed_files (working c') = parsed_files (working c).
Proof.
  intros Hrun. destruct (title_of file) as [title|x] eqn:Ht.
  - destruct (split_cons "-"%char title) as (tbl & ps & Hs).
    destruct (process_file_other_tables file title tbl ps c c' r Ht Hs Hrun)
      as (H1 & H2 & _). auto.
  - unfold process_file, bindM, lift in Hrun. rewrite Ht in Hrun.
    injection Hrun as <- _. auto.
Qed.

Lemma process_parsed_data_frame docs :
  forall c c' r,
    process_parsed_data docs c = (c', r) ->
    committed c' = committed c /\
    parsed_files (working c') = parsed_files (working c).
Proof.
  induction docs as [|file rest IH]; intros c c' r Hrun; simpl in Hrun.
  - injection Hrun as <- _. auto.
  - unfold bindM in Hrun.
    destruct (process_file file c) as [c1 [[]|x]] eqn:Hf.
    + destruct (process_file_frame _ _ _ _ Hf) as [H1 H2].
      destruct (IH _ _ _ Hrun) as [H3 H4]. split; congruence.
    + injection Hrun as <- _. now apply (process_file_frame _ _ _ _ Hf).
Qed.


(** ** Runs of the driver *)

Lemma with_ledger_same (s : store) (names : list string) :
  parsed_files s = Some names -> with_ledger names s = s.
Proof. destruct s; simpl. now intros ->. Qed.

Lemma main_eq (s : store) (dir : directory) :
  main s dir =
  match snd (scan dir (ledger_names s) []) with
  | Raise x => (after_parse s dir, Raise x)
  | Ok docs =>
      match process_parsed_data docs (connect_to_db (after_parse s dir)) with
      | (c3, Ok _) => (working c3, Ok tt)
      | (_, Raise x) => (after_parse s dir, Raise x)
      end
  end.
Proof.
  unfold main, main_body, after_parse.
  unfold bindM at 1.
  assert (Hc : exists c0,
             create_log_file_table (connect_to_db s) = (c0, Ok tt) /\
             working c0 = with_ledger (ledger_names s) s).
  { unfold create_log_file_table, ledger_names, with_ledger. simpl.
    destruct (parsed_files s) as [names|] eqn:E.
    - eexists. split; [reflexivity|]. simpl. destruct s; simpl in *. now subst.
    - eexists. split; [reflexivity|]. reflexivity. }
  destruct Hc as (c0 & -> & Hw0).
  unfold bindM at 1. unfold commit at 1. unfold bindM at 1. unfold parse_files.
  match goal with
  | |- context [parse_files_from dir [] ?c1] =>
      destruct (parse_files_from_scan dir [] c1 (ledger_names s))
        as (c2 & Hrun & Hw & Hs);
        [simpl; rewrite Hw0; reflexivity|]
  end.
  rewrite Hrun. simpl in Hw, Hs. specialize (Hs eq_refl).
  rewrite Hw0 in Hw.
  assert (Hc2 : c2 = connect_to_db
                       (with_ledger (fst (scan dir (ledger_names s) [])) s)).
  { destruct c2 as [cm wk]. simpl in *. subst. reflexivity. }
  destruct (snd (scan dir (ledger_names s) [])) as [docs|x].
  - unfold bindM. rewrite <- Hc2.
    destruct (process_parsed_data docs c2) as [c3 [[]|x]] eqn:Hp.
    + reflexivity.
    + destruct (process_parsed_data_frame _ _ _ _ Hp) as [Hcm _].
      unfold close_db. rewrite Hcm, Hc2. reflexivity.
  - unfold close_db. rewrite Hs, Hw. reflexivity.
Qed.

Lemma main_ledger (s : store) (dir : directory) :
  parsed_files (fst (main s dir)) = Some (fst (scan dir (ledger_names s) [])).
Proof.
  rewrite main_eq.
  destruct (snd (scan dir (ledger_names s) [])) as [docs|x]; [|reflexivity].
  destruct (process_parsed_data docs (connect_to_db (after_parse s dir)))
    as [c3 [[]|x]] eqn:Hp; [|reflexivity].
  destruct (process_parsed_data_frame _ _ _ _ Hp) as [_ Hl].
  simpl. rewrite Hl. reflexivity.
Qed.

Lemma main_rerun (s : store) (dir : directory) :
  main (fst (main s dir)) dir =
  (fst (main s dir),
   match snd (scan dir (ledger_names s) []) with
   | Ok _ => Ok tt
   | Raise x => Raise x
   end).
Proof.
  pose proof (main_ledger s dir) as Hl.
  set (s1 := fst (main s dir)) in *.
  assert (Hn : ledger_names s1 = fst (scan dir (ledger_names s) []))
    by (unfold ledger_names at 1; now rewrite Hl).
  rewrite main_eq. unfold after_parse. rewrite Hn.
  rewrite (scan_rerun dir (ledger_names s) [] _ [] (fun n => eq_refl)).
  simpl. rewrite (with_ledger_same s1 _ Hl).
  destruct (snd (scan dir (ledger_names s) [])); reflexivity.
Qed.

Lemma main_failure_keeps_tables (s : store) (dir : directory) (x : exn) :
  snd (main s dir) = Raise x -> tables (fst (main s dir)) = tables s.
Proof.
  rewrite main_eq.
  destruct (snd (scan dir (ledger_names s) [])) as [docs|y]; [|reflexivity].
  destruct (process_parsed_data docs (connect_to_db (after_parse s dir)))
    as [c3 [[]|y]]; [discriminate|reflexivity].
Qed.

(** C7: a file whose name is in the ledger is never handed to the extractor,
    so a run over a directory whose names are all in the ledger changes
    nothing, and a second run over the same directory leaves the database
    as the first run left it: same tables, same rows. *)
Theorem rerun_inserts_nothing :
  (forall dir c names docs,
      parsed_files (working c) = Some names ->
      snd (parse_files dir c) = Ok docs ->
      forall d, In d docs ->
                exists fn, In (fn, Parses d) dir /\ in_ledger fn names = false) /\
  (forall s dir names,
      parsed_files s = Some names ->
      (forall fn f, In (fn, f) dir -> in_ledger fn names = true) ->
      main s dir = (s, Ok tt)) /\
  (forall s dir, fst (main (fst (main s dir)) dir) = fst (main s dir)).
Proof.
  split; [|split].
  - intros dir c names docs Hl Hrun d Hd.
    destruct (parse_files_from_scan dir [] c names Hl) as (c' & Hp & _).
    unfold parse_files in Hrun. rewrite Hp in Hrun. simpl in Hrun.
    destruct (scan_docs dir names [] docs Hrun d Hd) as [[]|H]. exact H.
  - intros s dir names Hl Hall.
    rewrite main_eq. unfold after_parse, ledger_names. rewrite Hl.
    rewrite (scan_all_seen dir names [] Hall). simpl.
    now rewrite (with_ledger_same s names Hl).
  - intros s dir. now rewrite main_rerun.
Qed.

(** C3, as the code has it: [json.load] raising on a file ends the run with
    that exception.  The file is not recorded in the ledger, so a later run
    meets it again; the files listed after it are neither parsed nor
    recorded, whatever they hold, and no table is changed. *)
Theorem malformed_file_aborts_run s before fn rest c1 docs1 names1 :
  parse_files before (connect_to_db (with_ledger (ledger_names s) s))
    = (c1, Ok docs1) ->
  parsed_files (working c1) = Some names1 ->
  in_ledger fn names1 = false ->
  main s (before ++ (fn, Malformed) :: rest)
    = (with_ledger names1 s, Raise JSONDecodeError) /\
  working c1 = with_ledger names1 s.
Proof.
  intros Hrun Hl Hfn.
  destruct (parse_files_from_scan before []
              (connect_to_db (with_ledger (ledger_names s) s))
              (ledger_names s) eq_refl) as (c' & Hp & Hw & _).
  unfold parse_files in Hrun. rewrite Hp in Hrun.
  injection Hrun as -> Hdocs.
  simpl in Hw.
  assert (Hn : fst (scan before (ledger_names s) []) = names1).
  { rewrite Hw in Hl. simpl in Hl. congruence. }
  rewrite Hn in Hw.
  split; [|exact Hw].
  rewrite main_eq. unfold after_parse.
  rewrite scan_app, Hdocs, Hn. simpl. rewrite Hfn. reflexivity.
Qed.

(** C1: the ledger is written and committed by [parse_files], before any
    document is handed to [process_parsed_data].  On a directory holding one
    file that parses and whose extraction raises, the run ends with the file
    recorded and no row stored, and the next run passes the file over. *)
Theorem ledger_advanced_before_processing :
  main empty_db [("a.json", Parses bad_doc)]
  = ({| parsed_files := Some ["a.json"]; tables := [] |}, Raise KeyError) /\
  main {| parsed_files := Some ["a.json"]; tables := [] |}
       [("a.json", Parses bad_doc)]
  = ({| parsed_files := Some ["a.json"]; tables := [] |}, Ok tt).
Proof. vm_compute. split; reflexivity. Qed.

(** ** Errors inside a batch *)





(** ** The two kinds of table, operation by operation *)

(** X1: once the ledger exists, [log_parsed_file] appends the name at the
    end of it, whether the name is already there or not, and touches
    nothing else; [check_file_already_parsed] then answers [True] for that
    name and what it answered before for any other name, and changes
    nothing itself. *)
Theorem log_then_check (c : conn) (names : list string) (fn : string) :
  parsed_files (working c) = Some names ->
  exists c',
    log_parsed_file fn c = (c', Ok tt) /\
    parsed_files (working c') = Some (names ++ [fn]) /\
    tables (working c') = tables (working c) /\
    committed c' = committed c /\
    check_file_already_parsed fn c' = (c', Ok true) /\
    forall n, n <> fn ->
              check_file_already_parsed n c' = (c', Ok (in_ledger n names)) /\
              check_file_already_parsed n c = (c, Ok (in_ledger n names)).
Proof.
  intros Hl. unfold log_parsed_file, check_file_already_parsed. rewrite Hl.
  eexists. split; [reflexivity|]. simpl. repeat split.
  - now rewrite in_ledger_self.
  - rewrite in_ledger_app. simpl.
    apply String.eqb_neq in H. rewrite H. now rewrite !orb_false_r.
Qed.



(** ** Splitting and slicing *)

Lemma append_assoc (a b c : string) : ((a ++ b) ++ c = a ++ (b ++ c))%string.
Proof. induction a as [|x a IH]; simpl; [reflexivity|now rewrite IH]. Qed.

Lemma length_append (a b : string) :
  String.length (a ++ b) = String.length a + String.length b.
Proof. induction a as [|x a IH]; simpl; [reflexivity|now rewrite IH]. Qed.

Lemma concat_split (sep : ascii) (s : string) :
  String.concat (String sep EmptyString) (Py.split sep s) = s.
Proof.
  induction s as [|c s IH]; simpl; [reflexivity|].
  destruct (split_cons sep s) as (p & ps & E). rewrite E in *.
  destruct (Ascii.eqb c sep) eqn:Ec.
  - apply Ascii.eqb_eq in Ec. subst c.
    change (String.concat (String sep "") ("" :: p :: ps))
      with (String sep (String.concat (String sep "") (p :: ps))).
    now rewrite IH.
  - destruct ps as [|q ps]; simpl in *; [now subst|].
    now rewrite <- IH.
Qed.

Lemma split_parts_no_sep (sep : ascii) (s p : string) :
  In p (Py.split sep s) ->
  existsb (Ascii.eqb sep) (list_ascii_of_string p) = false.
Proof.
  revert p. induction s as [|c s IH]; simpl; intros p Hin.
  - destruct Hin as [<-|[]]. reflexivity.
  - destruct (Ascii.eqb c sep) eqn:Ec.
    + destruct Hin as [<-|Hin]; [reflexivity|now apply IH].
    + destruct (split_cons sep s) as (q & qs & E). rewrite E in *.
      destruct Hin as [<-|Hin].
      * simpl. rewrite Ascii.eqb_sym, Ec. simpl. apply IH. now left.
      * apply IH. now right.
Qed.

Lemma split_without_sep (sep : ascii) (s : string) :
  existsb (Ascii.eqb sep) (list_ascii_of_string s) = false ->
  Py.split sep s = [s].
Proof.
  induction s as [|c s IH]; simpl; [reflexivity|].
  intros H. apply orb_false_elim in H. destruct H as [Hc Hs].
  rewrite Ascii.eqb_sym, Hc. now rewrite (IH Hs).
Qed.

Lemma last_split_suffix (sep : ascii) (s : string) :
  exists pre, s = (pre ++ last (Py.split sep s) "")%string.
Proof.
  induction s as [|c s IH].
  - now exists EmptyString.
  - destruct IH as (pre & Hpre).
    cbn [Py.split].
    destruct (split_cons sep s) as (p & ps & E). rewrite E in *.
    destruct (Ascii.eqb c sep).
    + exists (String c pre).
      change (last ("" :: p :: ps) "") with (last (p :: ps) "").
      cbn [append]. now rewrite <- Hpre.
    + destruct ps as [|q ps].
      * exists EmptyString.
        pose proof (concat_split sep s) as Hc. rewrite E in Hc.
        simpl in Hc. subst p. reflexivity.
      * exists (String c pre).
        change (last (String c p :: q :: ps) "") with (last (q :: ps) "").
        change (last (p :: q :: ps) "") with (last (q :: ps) "") in Hpre.
        cbn [append]. now rewrite <- Hpre.
Qed.

Lemma substring_prefix (n : nat) (s : string) :
  exists rest,
    s = (substring 0 n s ++ rest)%string /\
    String.length (substring 0 n s) = Nat.min n (String.length s).
Proof.
  revert n. induction s as [|c s IH]; intros [|n]; simpl.
  - now exists EmptyString.
  - now exists EmptyString.
  - now exists (String c s).
  - destruct (IH n) as (rest & Hs & Hl).
    exists rest. split; [now rewrite <- Hs|now rewrite Hl].
Qed.

(** X4: the system key [title[:-13]] is the title without its last 13
    characters: a prefix of the title, 13 characters shorter, and the empty
    string for a title of at most 13 characters. *)
Theorem system_key_prefix (title : string) :
  (exists suffix,
      title = (system_key title ++ suffix)%string /\
      String.length suffix = Nat.min 13 (String.length title)) /\
  String.length (system_key title) = String.length title - 13 /\
  (String.length title <= 13 -> system_key title = "").
Proof.
  unfold system_key, Py.drop_suffix.
  destruct (substring_prefix (String.length title - 13) title)
    as (rest & Hs & Hl).
  assert (Hlen : String.length (substring 0 (String.length title - 13) title)
                 = String.length title - 13) by lia.
  split; [|split].
  - exists rest. split; [exact Hs|].
    apply (f_equal String.length) in Hs. rewrite length_append in Hs. lia.
  - exact Hlen.
  - intros Hshort.
    destruct (substring 0 (String.length title - 13) title); [reflexivity|].
    simpl in Hlen. lia.
Qed.

(** X5: for a title of exactly 6 segments, the table name and the four
    title columns of an assembled row, joined by hyphens, give the title
    back, which is also the [key] column. *)
Theorem six_segment_title_round_trip file title tbl ps e row :
  Py.split "-"%char title = tbl :: ps ->
  length (tbl :: ps) = 6 ->
  entry_row file title (tbl :: ps) tbl e = Ok row ->
  key row = JStr title /\
  exists b bt r cf,
    board_type row = JStr b /\ boot_type row = JStr bt /\
    release row = JStr r /\ config row = JStr cf /\
    title = (tbl ++ "-" ++ b ++ "-" ++ bt ++ "-" ++ r ++ "-" ++ cf)%string.
Proof.
  intros Hs Hlen Hr.
  unfold entry_row in Hr. bind_ok Hr. apply build_values_inv in Hr.
  destruct Hr as ((l1 & l2 & l3 & l4 & l5 & H1 & H2 & H3 & H4 & H5
                   & Hb & Hbt & Hrl & Hcf) & Hkey & _).
  split; [exact Hkey|].
  destruct ps as [|p1 [|p2 [|p3 [|p4 [|p5 [|p6 rest]]]]]]; try discriminate.
  simpl in H1, H2, H3, H4, H5.
  injection H1 as <-. injection H2 as <-. injection H3 as <-.
  injection H4 as <-. injection H5 as <-.
  exists (p1 ++ "-" ++ p2)%string, p3, p4, p5.
  repeat split; auto.
  pose proof (concat_split "-"%char title) as Hc. rewrite Hs in Hc.
  rewrite <- Hc. simpl.
  now rewrite !append_assoc.
Qed.

Lemma last_split_tail (sep : ascii) (s : string) :
  exists pre,
    s = (pre ++ last (Py.split sep s) "")%string /\
    ((length (Py.split sep s) = 1 /\ pre = "") \/
     (2 <= length (Py.split sep s) /\
      exists pre', pre = (pre' ++ String sep "")%string)).
Proof.
  induction s as [|c s IH].
  - exists EmptyString. split; [reflexivity|]. now left.
  - destruct IH as (pre & Hpre & Hcase).
    cbn [Py.split].
    destruct (split_cons sep s) as (p & ps & E). rewrite E in *.
    destruct (Ascii.eqb c sep) eqn:Ec.
    + apply Ascii.eqb_eq in Ec. subst c.
      exists (String sep pre).
      change (last ("" :: p :: ps) "") with (last (p :: ps) "").
      split; [cbn [append]; now rewrite <- Hpre|].
      right. split; [simpl; lia|].
      destruct Hcase as [[_ ->]|[_ (pre' & ->)]].
      * now exists EmptyString.
      * now exists (String sep pre').
    + destruct ps as [|q ps].
      * exists EmptyString. split.
        -- pose proof (concat_split sep s) as Hc. rewrite E in Hc.
           simpl in Hc. subst p. reflexivity.
        -- now left.
      * exists (String c pre).
        change (last (String c p :: q :: ps) "") with (last (q :: ps) "").
        change (last (p :: q :: ps) "") with (last (q :: ps) "") in Hpre.
        split; [cbn [append]; now rewrite <- Hpre|].
        right. split; [simpl; lia|].
        destruct Hcase as [[Hl _]|[_ (pre' & ->)]]; [simpl in Hl; lia|].
        now exists (String c pre').
Qed.

(** X6: for the table ["perfbench"] the resolved version is the tail of the
    entry's [identifier] after its last hyphen: a string without hyphen
    that ends the identifier, what stands before it being empty or ending
    with a hyphen; it is the whole identifier when that has no hyphen. *)
Theorem perfbench_version_is_tail e v :
  resolve_app_version "perfbench" e = Ok v ->
  exists ident ver pre,
    Py.subscript e "identifier" = Ok (JStr ident) /\
    v = JStr ver /\
    ident = (pre ++ ver)%string /\
    has_hyphen ver = false /\
    (pre = "" \/ exists pre', pre = (pre' ++ "-")%string) /\
    (has_hyphen ident = true -> exists pre', pre = (pre' ++ "-")%string) /\
    (has_hyphen ident = false -> pre = "" /\ ver = ident).
Proof.
  unfold resolve_app_version. simpl. intros H.
  repeat bind_ok H. injection H as <-.
  destruct a as [| | |ident| |]; try discriminate E0.
  injection E0 as <-.
  apply last_item_last in E1. subst a1.
  destruct (last_split_tail "-"%char ident) as (pre & Hpre & Hcase).
  exists ident, (last (Py.split "-"%char ident) ""%string), pre.
  assert (Hver : has_hyphen (last (Py.split "-"%char ident) "") = false).
  { destruct (split_cons "-"%char ident) as (p & ps & Es).
    apply (split_parts_no_sep "-"%char ident).
    rewrite Es. destruct ps as [|q ps] using rev_ind.
    - now left.
    - rewrite app_comm_cons, last_last. apply in_or_app. right. now left. }
  split; [reflexivity|]. split; [reflexivity|]. split; [exact Hpre|].
  split; [exact Hver|]. split; [|split].
  - destruct Hcase as [[_ ->]|[_ Hp]]; [now left|now right].
  - intros Hh. destruct Hcase as [[Hl ->]|[_ Hp]]; [|exact Hp].
    simpl in Hpre. rewrite <- Hpre in Hver. congruence.
  - intros Hn. unfold has_hyphen in Hn.
    pose proof (split_without_sep "-"%char ident Hn) as Hs.
    rewrite Hs in *. simpl in *.
    destruct Hcase as [[_ ->]|[Hl _]]; [now split|lia].
Qed.

(** ** The rows of one document *)

Lemma extract_ok_rows file title l tbl takes entries :
  snd (extract file title l tbl takes entries) = Ok tt ->
  Forall2 (fun e row => entry_row file title l tbl e = Ok row)
          (filter (valued title) entries)
          (fst (extract file title l tbl takes entries)).
Proof.
  induction entries as [|e rest IH]; simpl; intros H; [constructor|].
  unfold valued at 1.
  destruct (has_value title e) as [[|]|x]; simpl in *.
  - destruct (entry_row file title l tbl e) as [row|x] eqn:Hr; [|discriminate].
    destruct (takes row); [|discriminate].
    destruct (extract file title l tbl takes rest) as [rows r]. simpl in *.
    constructor; auto.
  - now apply IH.
  - discriminate.
Qed.

(** X7: when a document is processed without error, the rows added to its
    table are the rows of the entries that carry a ["value"], one for each,
    in the order of the entries, after the rows the table held. *)
Theorem document_rows_follow_entries file title tbl ps results c c' :
  title_of file = Ok title ->
  Py.split "-"%char title = tbl :: ps ->
  Py.bind (Py.subscript file "results") Py.values = Ok results ->
  process_file file c = (c', Ok tt) ->
  exists rows,
    find_table tbl (tables (working c')) =
      Some (rows_or_empty tbl (working c) ++ rows) /\
    Forall2 (fun e row => entry_row file title (tbl :: ps) tbl e = Ok row)
            (filter (valued title) results) rows /\
    length rows = length (filter (valued title) results).
Proof.
  intros Ht Hs Hres Hrun.
  destruct (process_file_unfold file title c Ht) as (tbl' & ps' & Hs' & Hp).
  rewrite Hs in Hs'. injection Hs' as <- <-.
  destruct (String.eqb tbl "") eqn:Ee.
  { apply String.eqb_eq in Ee. subst tbl.
    rewrite Hp, create_testresult_table_empty in Hrun. discriminate. }
  apply String.eqb_neq in Ee.
  destruct (create_testresult_table_spec tbl c Ee) as (c1 & Hc & _ & _ & Hf & _).
  rewrite Hp, Hc, Hres in Hrun.
  destruct (process_results_extract file title (tbl :: ps) tbl results c1 _ Hf)
    as (c2 & Hrun2 & _ & _ & Hg).
  rewrite Hrun2 in Hrun. injection Hrun as <- Hok.
  exists (fst (extract file title (tbl :: ps) tbl (storable tbl (working c1))
                 results)).
  pose proof (extract_ok_rows file title (tbl :: ps) tbl _ results Hok) as HF.
  split; [|split].
  - rewrite Hg, String.eqb_refl, Hf. reflexivity.
  - exact HF.
  - symmetry. exact (Forall2_length HF).
Qed.

(** X8: two rows assembled for entries of the same document agree on the
    thirteen columns that come from the document: the key, the four title
    columns, [last_modified] and the seven descriptor columns. *)
Theorem rows_share_document_columns file title l tbl e1 e2 r1 r2 :
  entry_row file title l tbl e1 = Ok r1 ->
  entry_row file title l tbl e2 = Ok r2 ->
  key r1 = key r2 /\ board_type r1 = board_type r2 /\
  boot_type r1 = boot_type r2 /\ release r1 = release r2 /\
  config r1 = config r2 /\ last_modified r1 = last_modified r2 /\
  processor r1 = processor r2 /\ memory r1 = memory r2 /\
  disk r1 = disk r2 /\ graphics r1 = graphics r2 /\
  network r1 = network r2 /\ os r1 = os r2 /\ kernel r1 = kernel r2.
Proof.
  intros H1 H2. unfold entry_row in H1, H2. bind_ok H1. bind_ok H2.
  apply build_values_inv in H1, H2.
  destruct H1 as ((a1 & a2 & a3 & a4 & a5 & A1 & A2 & A3 & A4 & A5
                   & Ab & Abt & Ar & Ac)
                  & Ak & _ & Alm & Ap & Am & Ad & Ag & An & Ao & Akr & _).
  destruct H2 as ((b1 & b2 & b3 & b4 & b5 & B1 & B2 & B3 & B4 & B5
                   & Bb & Bbt & Br & Bc)
                  & Bk & _ & Blm & Bp & Bm & Bd & Bg & Bn & Bo & Bkr & _).
  repeat split; congruence.
Qed.

(** X9: an entry whose result for the system key is there but is not a
    mapping never gives a row: [null], a boolean or a number raises
    [TypeError] at the test; a string or a list is passed over when it does
    not contain ["value"], and raises when it does. *)
Theorem non_mapping_result_gives_no_row file title l tbl e d nested c :
  Py.subscript e "results" = Ok (JDict d) ->
  Py.lookup (system_key title) d = Some nested ->
  (forall m, nested <> JDict m) ->
  exists r,
    process_result file title l tbl e c = (c, r) /\
    (Py.contains "value" nested = Ok false -> r = Ok tt) /\
    (Py.contains "value" nested = Ok true -> exists x, r = Raise x) /\
    (Py.contains "value" nested = Raise TypeError -> r = Raise TypeError) /\
    (match nested with
     | JNull | JBool _ | JNum _ _ => r = Raise TypeError
     | _ => True
     end).
Proof.
  intros He Hk Hnd.
  assert (Hv : has_value title e = Py.contains "value" nested).
  { unfold has_value. rewrite He. simpl. now rewrite Hk. }
  unfold process_result, bindM, lift. rewrite Hv.
  destruct (Py.contains "value" nested) as [[|]|x] eqn:Hc; simpl.
  - destruct (entry_row file title l tbl e) as [row|x] eqn:Hr.
    + exfalso. unfold entry_row in Hr. bind_ok Hr.
      apply build_values_inv in Hr.
      destruct Hr as (_ & _ & _ & _ & _ & _ & _ & _ & _ & _ & _ & _ & _ & _
                      & rs & nested' & Hrs & Hk' & Hval).
      rewrite He in Hrs. injection Hrs as <-.
      simpl in Hk'. rewrite Hk in Hk'. injection Hk' as <-.
      destruct nested; try discriminate Hval. now apply (Hnd d0).
    + exists (Raise x). repeat split; try discriminate; eauto.
      destruct nested; auto; discriminate.
  - exists (Ok tt). repeat split; try discriminate; auto.
    destruct nested; auto; discriminate.
  - exists (Raise x). repeat split; try discriminate.
    + congruence.
    + destruct nested; auto; simpl in Hc; congruence.
Qed.


(** ** Batches *)

(** X11: a batch is processed document by document, from left to right:
    processing [before ++ after] is processing [before] and, when that
    raised nothing, processing [after] from the state reached; an exception
    in [before] is the result and [after] is not looked at. *)
Theorem process_parsed_data_app before after c :
  process_parsed_data (before ++ after) c =
  match process_parsed_data before c with
  | (c1, Ok _) => process_parsed_data after c1
  | (c1, Raise x) => (c1, Raise x)
  end.
Proof.
  revert c. induction before as [|d before IH]; intros c; simpl; [reflexivity|].
  unfold bindM. destruct (process_file d c) as [c0 [[]|x]]; [apply IH|reflexivity].
Qed.

(** X12: [process_parsed_data] does not commit: closing the connection
    after it, without [commit], leaves the database as it was when the
    connection was opened, whatever the documents hold. *)
Theorem extraction_alone_persists_nothing docs s :
  close_db (fst (process_parsed_data docs (connect_to_db s))) = s.
Proof.
  destruct (process_parsed_data docs (connect_to_db s)) as [c' r] eqn:E.
  destruct (process_parsed_data_frame _ _ _ _ E) as [H _]. exact H.
Qed.

Lemma keeps_rows_refl s : keeps_rows s s.
Proof. intros n rows H. exists []. now rewrite app_nil_r. Qed.

Lemma keeps_rows_same_tables s s' : tables s' = tables s -> keeps_rows s s'.
Proof. intros E n rows H. exists []. now rewrite E, app_nil_r. Qed.

Lemma keeps_rows_trans s1 s2 s3 :
  keeps_rows s1 s2 -> keeps_rows s2 s3 -> keeps_rows s1 s3.
Proof.
  intros H12 H23 n rows H.
  destruct (H12 n rows H) as (m1 & H1).
  destruct (H23 n _ H1) as (m2 & H2).
  exists (m1 ++ m2). now rewrite app_assoc.
Qed.

Lemma process_file_keeps file c c' r :
  process_file file c = (c', r) -> keeps_rows (working c) (working c').
Proof.
  intros Hrun. destruct (title_of file) as [title|x] eqn:Ht.
  - destruct (process_file_unfold file title c Ht) as (tbl & ps & Hs & Hp).
    destruct (String.eqb tbl "") eqn:Ee.
    { apply String.eqb_eq in Ee. subst tbl.
      rewrite Hp, create_testresult_table_empty in Hrun.
      injection Hrun as <- _. apply keeps_rows_refl. }
    apply String.eqb_neq in Ee.
    destruct (create_testresult_table_spec tbl c Ee)
      as (c1 & Hc & _ & _ & Hf & Ho).
    assert (Hk : exists added, grows tbl added (working c1) (working c')).
    { rewrite Hp, Hc in Hrun.
      destruct (Py.bind (Py.subscript file "results") Py.values) as [results|x].
      - destruct (process_results_extract file title (tbl :: ps) tbl results
                    c1 _ Hf) as (c2 & Hrun2 & _ & Hg).
        rewrite Hrun2 in Hrun. injection Hrun as <- _. eauto.
      - injection Hrun as <- _. exists []. apply grows_refl. }
    destruct Hk as (added & _ & Hg).
    intros n rows Hn. rewrite Hg.
    destruct (String.eqb (relname n) (relname tbl)) eqn:En.
    + apply String.eqb_eq in En.
      assert (Hsame : forall ts, find_table n ts = find_table tbl ts).
      { intros ts. induction ts as [|[m rs] ts IH]; simpl; [reflexivity|].
        now rewrite En, IH. }
      rewrite Hsame, Hf. unfold rows_or_empty.
      rewrite <- Hsame, Hn. simpl. eauto.
    + apply String.eqb_neq in En. rewrite (Ho n En), Hn.
      exists []. now rewrite app_nil_r.
  - unfold process_file, bindM, lift in Hrun. rewrite Ht in Hrun.
    injection Hrun as <- _. apply keeps_rows_refl.
Qed.

Lemma process_parsed_data_keeps docs :
  forall c c' r,
    process_parsed_data docs c = (c', r) ->
    keeps_rows (working c) (working c').
Proof.
  induction docs as [|file rest IH]; intros c c' r Hrun; simpl in Hrun.
  - injection Hrun as <- _. apply keeps_rows_refl.
  - unfold bindM in Hrun.
    destruct (process_file file c) as [c1 [[]|x]] eqn:Hf.
    + apply (keeps_rows_trans _ (working c1)).
      * now apply (process_file_keeps file c c1 (Ok tt)).
      * now apply (IH c1 c' r).
    + injection Hrun as <- _. now apply (process_file_keeps file c c1 (Raise x)).
Qed.

(** X13: a run never deletes anything, however it ends: the ledger it
    leaves is the ledger it found with names added at the end, and every
    table it found is still there with the rows it held, in place, possibly
    followed by new rows. *)
Theorem main_never_deletes (s : store) (dir : directory) :
  (exists added,
      parsed_files (fst (main s dir)) = Some (ledger_names s ++ added)) /\
  keeps_rows s (fst (main s dir)).
Proof.
  split.
  - rewrite main_ledger.
    destruct (scan_grows dir (ledger_names s) []) as (added & ->). eauto.
  - assert (Hk : keeps_rows s (after_parse s dir))
      by (apply keeps_rows_same_tables; reflexivity).
    rewrite main_eq.
    destruct (snd (scan dir (ledger_names s) [])) as [docs|x]; [|exact Hk].
    destruct (process_parsed_data docs (connect_to_db (after_parse s dir)))
      as [c3 [[]|x]] eqn:Hp; [|exact Hk].
    apply (keeps_rows_trans _ _ _ Hk).
    exact (process_parsed_data_keeps docs _ _ _ Hp).
Qed.

(** ** The ledger after a run *)

Lemma in_ledger_In (n : string) (names : list string) :
  in_ledger n names = true <-> In n names.
Proof.
  unfold in_ledger. rewrite existsb_exists. split.
  - intros (m & Hin & Hm). apply String.eqb_eq in Hm. now subst.
  - intros Hin. exists n. split; [exact Hin|apply String.eqb_refl].
Qed.

Lemma scan_all_recorded files :
  forall names acc docs,
    snd (scan files names acc) = Ok docs ->
    forall fn f, In (fn, f) files ->
                 in_ledger fn (fst (scan files names acc)) = true.
Proof.
  induction files as [|[fn0 f0] rest IH]; intros names acc docs H fn f Hin;
    simpl in *; [destruct Hin|].
  destruct (in_ledger fn0 names) eqn:Hseen.
  - destruct Hin as [Heq|Hin].
    + injection Heq as <- _. now apply scan_keeps.
    + now apply (IH names acc docs H fn f).
  - destruct f0 as [data|]; simpl in *; [|discriminate].
    destruct Hin as [Heq|Hin].
    + injection Heq as <- _. apply scan_keeps, in_ledger_self.
    + now apply (IH _ _ docs H fn f).
Qed.

Lemma scan_raise_malformed files :
  forall names acc x,
    snd (scan files names acc) = Raise x ->
    x = JSONDecodeError /\ exists fn, In (fn, Malformed) files.
Proof.
  induction files as [|[fn0 f0] rest IH]; intros names acc x H; simpl in *;
    [discriminate|].
  destruct (in_ledger fn0 names).
  - destruct (IH _ _ _ H) as (Hx & fn & Hin). eauto.
  - destruct f0 as [data|]; simpl in *.
    + destruct (IH _ _ _ H) as (Hx & fn & Hin). eauto.
    + injection H as <-. eauto.
Qed.

Lemma scan_nodup files :
  forall names acc, NoDup names -> NoDup (fst (scan files names acc)).
Proof.
  induction files as [|[fn f] rest IH]; intros names acc Hnd; simpl; [exact Hnd|].
  destruct (in_ledger fn names) eqn:Hseen; [now apply IH|].
  destruct f as [data|]; simpl; [|exact Hnd].
  apply IH. apply NoDup_app; [exact Hnd|repeat constructor; intros []|].
  intros x Hx [<-|[]].
  apply in_ledger_In in Hx. congruence.
Qed.

(** X14: a run records no name twice: a ledger without duplicates is left
    without duplicates, also when the same name is listed more than once
    and however the run ends. *)
Theorem main_keeps_ledger_duplicate_free (s : store) (dir : directory) :
  NoDup (ledger_names s) -> NoDup (ledger_names (fst (main s dir))).
Proof.
  intros Hnd. unfold ledger_names at 1. rewrite main_ledger.
  now apply scan_nodup.
Qed.

(** X15: when every file of the directory parses, every file name is in
    the ledger once the run is over, whether the extraction that followed
    raised or not. *)
Theorem all_parsed_files_are_recorded (s : store) (dir : directory) :
  (forall fn, ~ In (fn, Malformed) dir) ->
  forall fn f, In (fn, f) dir ->
               in_ledger fn (ledger_names (fst (main s dir))) = true.
Proof.
  intros Hall fn f Hin. unfold ledger_names at 1. rewrite main_ledger.
  destruct (snd (scan dir (ledger_names s) [])) as [docs|x] eqn:Hs.
  - now apply (scan_all_recorded dir _ _ docs Hs fn f).
  - destruct (scan_raise_malformed dir _ _ _ Hs) as (_ & fn' & Hm).
    now destruct (Hall fn').
Qed.

Lemma scan_all_new entries :
  forall names acc,
    NoDup (map fst entries) ->
    (forall fn, In fn (map fst entries) -> in_ledger fn names = false) ->
    scan (parsed_dir entries) names acc =
    (names ++ map fst entries, Ok (acc ++ map snd entries)).
Proof.
  induction entries as [|[fn d] rest IH]; intros names acc Hnd Hnew; simpl.
  - now rewrite !app_nil_r.
  - rewrite (Hnew fn (or_introl eq_refl)). simpl.
    inversion Hnd as [|? ? Hnotin Hnd']; subst.
    rewrite IH; [now rewrite <- !app_assoc|exact Hnd'|].
    intros fn' Hin'. rewrite in_ledger_app. rewrite (Hnew fn' (or_intror Hin')).
    simpl. rewrite orb_false_r.
    apply String.eqb_neq. intros ->. now apply Hnotin.
Qed.

(** X16: on a directory of distinct names, none of them in the ledger, all
    of whose files parse, [parse_files] returns the parsed documents in the
    order of the listing and leaves the ledger with the names added at its
    end, in the same order; the tables are not touched. *)
Theorem parse_files_all_new entries c names :
  parsed_files (working c) = Some names ->
  NoDup (map fst entries) ->
  (forall fn, In fn (map fst entries) -> in_ledger fn names = false) ->
  exists c',
    parse_files (parsed_dir entries) c = (c', Ok (map snd entries)) /\
    parsed_files (working c') = Some (names ++ map fst entries) /\
    tables (working c') = tables (working c).
Proof.
  intros Hl Hnd Hnew.
  destruct (parse_files_from_scan (parsed_dir entries) [] c names Hl)
    as (c' & Hrun & Hw & _).
  rewrite (scan_all_new entries names [] Hnd Hnew) in Hrun, Hw.
  simpl in Hrun, Hw.
  exists c'. split; [exact Hrun|]. rewrite Hw. split; reflexivity.
Qed.

(** ** The exceptions a run can end with *)

Create HintDb pyerr.

Lemma subscript_error x k e : Py.subscript x k = Raise e -> data_error e = true.
Proof.
  destruct x; simpl; try (now intros [= <-]).
  destruct (Py.lookup k d); [discriminate|now intros [= <-]].
Qed.

Lemma index_error {A} (l : list A) i e :
  Py.index l i = Raise e -> data_error e = true.
Proof. intros H. now rewrite (index_raise l i e H). Qed.

Lemma split_hyphen_error x e :
  Py.split_hyphen x = Raise e -> data_error e = true.
Proof. destruct x; simpl; try discriminate; now intros [= <-]. Qed.

Lemma last_item_error {A} (l : list A) e :
  Py.last_item l = Raise e -> data_error e = true.
Proof.
  unfold Py.last_item. destruct (rev l); [now intros [= <-]|discriminate].
Qed.

Lemma get_or_empty_error x k e :
  Py.get_or_empty x k = Raise e -> data_error e = true.
Proof.
  destruct x; simpl; try (now intros [= <-]).
  destruct (Py.lookup k d); discriminate.
Qed.

Lemma contains_error k x e : Py.contains k x = Raise e -> data_error e = true.
Proof. destruct x; simpl; try discriminate; now intros [= <-]. Qed.

Lemma values_error x e : Py.values x = Raise e -> data_error e = true.
Proof. destruct x; simpl; try discriminate; now intros [= <-]. Qed.

#[local] Hint Resolve subscript_error index_error split_hyphen_error
  last_item_error get_or_empty_error contains_error values_error : pyerr.

Ltac bind_raise H :=
  match type of H with
  | Py.bind ?r _ = Raise _ =>
      let E := fresh "E" in
      destruct r eqn:E; simpl in H;
      [|injection H as <-; solve [eauto with pyerr]]
  end.

Lemma system_field_error file title g f e :
  system_field file title g f = Raise e -> data_error e = true.
Proof.
  unfold system_field. intros H. repeat bind_raise H. eauto with pyerr.
Qed.

#[local] Hint Resolve system_field_error : pyerr.

Lemma has_value_error title e x :
  has_value title e = Raise x -> data_error x = true.
Proof.
  unfold has_value. intros H. repeat bind_raise H. eauto with pyerr.
Qed.

Lemma entry_row_error file title l tbl e x :
  entry_row file title l tbl e = Raise x -> data_error x = true.
Proof.
  unfold entry_row, resolve_app_version. intros H.
  destruct (negb (String.eqb tbl "perfbench")).
  - bind_raise H. unfold build_values in H. repeat bind_raise H. discriminate H.
  - destruct (Py.subscript e "identifier") as [ident|y] eqn:Ei; simpl in H;
      [|injection H as <-; eauto with pyerr].
    destruct (Py.split_hyphen ident) as [parts|y] eqn:Es; simpl in H;
      [|injection H as <-; eauto with pyerr].
    destruct (Py.last_item parts) as [v|y] eqn:El; simpl in H;
      [|injection H as <-; eauto with pyerr].
    unfold build_values in H. repeat bind_raise H. discriminate H.
Qed.

Lemma extract_error file title l tbl takes entries x :
  snd (extract file title l tbl takes entries) = Raise x ->
  x <> JSONDecodeError.
Proof.
  induction entries as [|e rest IH]; simpl; [discriminate|].
  destruct (has_value title e) as [[|]|y] eqn:Hv; simpl.
  - destruct (entry_row file title l tbl e) as [row|y] eqn:Hr; simpl.
    + destruct (takes row); [|intros [= <-]; discriminate].
      destruct (extract file title l tbl takes rest) as [rows r]. exact IH.
    + intros [= <-] ->.
      now pose proof (entry_row_error file title l tbl e _ Hr).
  - exact IH.
  - intros [= <-] ->. now pose proof (has_value_error title e _ Hv).
Qed.

Lemma process_file_error file c c' x :
  process_file file c = (c', Raise x) -> x <> JSONDecodeError.
Proof.
  intros Hrun. destruct (title_of file) as [title|y] eqn:Ht.
  - destruct (process_file_unfold file title c Ht) as (tbl & ps & Hs & Hp).
    destruct (String.eqb tbl "") eqn:Ee.
    { apply String.eqb_eq in Ee. subst tbl.
      rewrite Hp, create_testresult_table_empty in Hrun.
      injection Hrun as _ <-. discriminate. }
    apply String.eqb_neq in Ee.
    destruct (create_testresult_table_spec tbl c Ee) as (c1 & Hc & _ & _ & Hf & _).
    rewrite Hp, Hc in Hrun.
    destruct (Py.bind (Py.subscript file "results") Py.values)
      as [results|y] eqn:Hr.
    + destruct (process_results_extract file title (tbl :: ps) tbl results
                  c1 _ Hf) as (c2 & Hrun2 & _).
      rewrite Hrun2 in Hrun. injection Hrun as _ Hx.
      exact (extract_error file title (tbl :: ps) tbl _ results x Hx).
    + injection Hrun as _ <-.
      assert (Hd : data_error y = true) by (bind_raise Hr; eauto with pyerr).
      intros ->. discriminate.
  - unfold process_file, bindM, lift in Hrun. rewrite Ht in Hrun.
    injection Hrun as _ <-.
    assert (Hd : data_error y = true).
    { unfold title_of in Ht. bind_raise Ht.
      destruct a; try discriminate Ht; now injection Ht as <-. }
    intros ->. discriminate.
Qed.

Lemma process_parsed_data_error docs :
  forall c c' x,
    process_parsed_data docs c = (c', Raise x) -> x <> JSONDecodeError.
Proof.
  induction docs as [|file rest IH]; intros c c' x Hrun; simpl in Hrun;
    [discriminate|].
  unfold bindM in Hrun.
  destruct (process_file file c) as [c1 [[]|y]] eqn:Hf.
  - now apply (IH c1 c' x).
  - injection Hrun as _ <-. now apply (process_file_error file c c1).
Qed.

(** X17: a run that raises leaves the tables as they were.  When it ends
    with the JSON decode error, a file of the directory is not valid JSON.
    When it ends with [KeyError], [IndexError], [TypeError],
    [AttributeError] or an error of the database, the exception comes from
    the processing of the parsed documents: every file name of the
    directory is then in the ledger. *)
Theorem main_failure_modes (s : store) (dir : directory) (x : exn) :
  snd (main s dir) = Raise x ->
  tables (fst (main s dir)) = tables s /\
  (x = JSONDecodeError -> exists fn, In (fn, Malformed) dir) /\
  (data_error x = true \/ x = DatabaseError ->
   forall fn f, In (fn, f) dir ->
                in_ledger fn (ledger_names (fst (main s dir))) = true).
Proof.
  intros Hrun. split; [now apply (main_failure_keeps_tables s dir x)|].
  unfold ledger_names at 1. rewrite main_ledger.
  rewrite main_eq in Hrun.
  destruct (snd (scan dir (ledger_names s) [])) as [docs|y] eqn:Hs.
  - destruct (process_parsed_data docs (connect_to_db (after_parse s dir)))
      as [c3 [[]|y]] eqn:Hp; [discriminate|].
    simpl in Hrun. injection Hrun as ->. split.
    + intros ->. now destruct (process_parsed_data_error docs _ c3 _ Hp).
    + intros _ fn f Hin. now apply (scan_all_recorded dir _ _ docs Hs fn f).
  - simpl in Hrun. injection Hrun as ->.
    destruct (scan_raise_malformed dir (ledger_names s) [] x Hs) as (-> & Hm).
    split; [intros _; exact Hm|].
    intros [Hd|Hd]; discriminate.
Qed.

(** ** A run as the composition of its parts *)

(** X18: on a directory of distinct new names all of whose files parse, a
    run is [process_parsed_data] on the documents in the order of the
    listing, from a database in which all the names are already recorded:
    when it raises nothing its working store is what the run leaves, and
    when it raises the run leaves the recorded names and the old tables. *)
Theorem main_on_new_files (s : store) (entries : list (string * json)) :
  NoDup (map fst entries) ->
  (forall fn, In fn (map fst entries) -> in_ledger fn (ledger_names s) = false) ->
  main s (parsed_dir entries) =
  match process_parsed_data (map snd entries)
          (connect_to_db
             (with_ledger (ledger_names s ++ map fst entries) s)) with
  | (c3, Ok _) => (working c3, Ok tt)
  | (_, Raise x) =>
      (with_ledger (ledger_names s ++ map fst entries) s, Raise x)
  end.
Proof.
  intros Hnd Hnew. rewrite main_eq. unfold after_parse.
  rewrite (scan_all_new entries (ledger_names s) [] Hnd Hnew). reflexivity.
Qed.

(** X19: a run over an empty directory raises nothing, leaves the tables as
    they were and the ledger as it was, created empty when the database had
    none. *)
Theorem main_on_empty_directory (s : store) :
  main s [] = (with_ledger (ledger_names s) s, Ok tt).
Proof. rewrite main_eq. reflexivity. Qed.

(** ** When a row can be assembled *)

(** X20: the row of an entry is assembled exactly when the title has at
    least 6 segments, the version resolves, the document has
    [last_modified] and the seven descriptor fields for the system key, and
    the entry has [title], [description], [scale] and a ["value"] under its
    result for the system key; otherwise assembling raises. *)
Theorem entry_row_succeeds_iff file title l tbl e :
  (exists row, entry_row file title l tbl e = Ok row) <->
  (6 <= length l /\
   (exists av, resolve_app_version tbl e = Ok av) /\
   (exists lm, Py.subscript file "last_modified" = Ok lm) /\
   Forall (fun gf => exists v,
               system_field file title (fst gf) (snd gf) = Ok v)
          descriptor_fields /\
   (exists t, Py.subscript e "title" = Ok t) /\
   (exists t, Py.subscript e "description" = Ok t) /\
   (exists t, Py.subscript e "scale" = Ok t) /\
   (exists rs nested v,
       Py.subscript e "results" = Ok rs /\
       Py.subscript rs (system_key title) = Ok nested /\
       Py.subscript nested "value" = Ok v)).
Proof.
  split.
  - intros (row & H). unfold entry_row in H. bind_ok H.
    apply build_values_inv in H.
    destruct H as ((l1 & l2 & l3 & l4 & l5 & H1 & H2 & H3 & H4 & H5 & _)
                   & _ & _ & Hlm & F1 & F2 & F3 & F4 & F5 & F6 & F7
                   & Ht & Hd & Hs & rs & nested & Hrs & Hk & Hv).
    split.
    { assert (5 < length l) by (apply nth_error_Some; congruence). lia. }
    split; [eauto|]. split; [eauto|].
    split; [repeat constructor; simpl; eauto|].
    split; [eauto|]. split; [eauto|]. split; [eauto|].
    exists rs, nested, (value row). auto.
  - intros (Hlen & (av & Hav) & (lm & Hlm) & HF & (t1 & Ht) & (t2 & Hd)
            & (t3 & Hs) & (rs & nested & v & Hrs & Hk & Hv)).
    unfold descriptor_fields in HF.
    repeat match goal with
           | H : Forall _ (_ :: _) |- _ =>
               let Hx := fresh "Hx" in
               let Hr := fresh "Hr" in
               apply Forall_cons_iff in H; destruct H as [[? Hx] H];
               simpl in Hx
           end.
    unfold entry_row. rewrite Hav. simpl. unfold build_values.
    destruct (index_length l 1) as (l1 & -> & _); [lia|].
    destruct (index_length l 2) as (l2 & -> & _); [lia|].
    destruct (index_length l 3) as (l3 & -> & _); [lia|].
    destruct (index_length l 4) as (l4 & -> & _); [lia|].
    destruct (index_length l 5) as (l5 & -> & _); [lia|].
    simpl. rewrite Hlm. simpl.
    rewrite Hx, Hx0, Hx1, Hx2, Hx3, Hx4, Hx5. simpl.
    rewrite Ht, Hd, Hs, Hrs. simpl. rewrite Hk. simpl. rewrite Hv. simpl.
    eauto.
Qed.

End WithServer.

(** ** Examples *)

(** A server that takes the plain rows, which every server takes; the rows
    of the examples below are of that kind. *)
#[export] Instance plain_server : Server := {| accepts := plain_row |}.

Lemma missing_system_entry_skipped_witness :
  process_result
    (sample_doc sample_title [] [])
    sample_title (Py.split "-"%char sample_title) "diskbench"
    (sample_entry "Apache" [("another-system", JDict [("value", JNum 7 0)])])
    fresh_conn
  = (fresh_conn, Ok tt).
Proof.
  exact (proj1 (proj2 (proj2
    (missing_system_entry_skipped
       (sample_doc sample_title [] [])
       sample_title (Py.split "-"%char sample_title) "diskbench"
       (sample_entry "Apache" [("another-system", JDict [("value", JNum 7 0)])])
       [("another-system", JDict [("value", JNum 7 0)])]
       fresh_conn eq_refl eq_refl)))).
Defined.





Lemma app_version_by_family_witness :
  exists row,
    entry_row perf_doc perf_title (Py.split "-"%char perf_title) "perfbench"
      (sample_entry "Apache" (with_value perf_title (JNum 1234 0))) = Ok row /\
    app_version row = JStr "2.0.1".
Proof.
  eexists. split; [vm_compute; reflexivity|].
  match goal with
  | |- app_version ?r = _ =>
      destruct (app_version_by_family
                  perf_doc perf_title (Py.split "-"%char perf_title) "perfbench"
                  (sample_entry "Apache" (with_value perf_title (JNum 1234 0)))
                  r eq_refl) as [T _]
  end.
  destruct (T eq_refl) as (ident & Hi & Hav).
  injection Hi as <-. exact Hav.
Defined.



Lemma row_iff_value_key_witness :
  exists row c',
    entry_row null_doc sample_title (Py.split "-"%char sample_title)
      "diskbench" null_entry = Ok row /\
    value row = JNull /\
    process_result null_doc sample_title (Py.split "-"%char sample_title)
      "diskbench" null_entry
      (connect_to_db {| parsed_files := Some []; tables := [("diskbench", [])] |})
    = (c', Ok tt) /\
    find_table "diskbench" (tables (working c')) = Some [row].
Proof.
  destruct (row_iff_value_key null_doc sample_title
              (Py.split "-"%char sample_title) "diskbench" null_entry
              (with_value sample_title JNull) [("value", JNull)]
              (connect_to_db
                 {| parsed_files := Some []; tables := [("diskbench", [])] |})
              eq_refl eq_refl) as (_ & T & I).
  specialize (T JNull eq_refl).
  destruct (entry_row null_doc sample_title (Py.split "-"%char sample_title)
              "diskbench" null_entry) as [row|x] eqn:E; [|discriminate E].
  destruct T as (Hv & Hrun).
  destruct (I row [] eq_refl) as (Hst & _).
  destruct Hst as (c' & Hins & _ & _ & Hg).
  - injection E as <-. reflexivity.
  - exists row, c'. repeat split; try assumption.
    + now rewrite Hrun.
    + rewrite Hg. reflexivity.
Defined.

(** An entry whose ["value"] is [null] has no numeric value, and its row is
    inserted all the same. *)
Lemma null_value_row_emitted :
  has_numeric_value sample_title null_entry = false /\
  snd (process_file null_doc fresh_conn) = Ok tt /\
  option_map (map value)
    (find_table "diskbench"
       (tables (working (fst (process_file null_doc fresh_conn))))) =
  Some [JNull].
Proof. vm_compute. repeat split; reflexivity. Qed.

Lemma rerun_inserts_nothing_witness :
  main (fst (main empty_db [("a.json", Parses good_doc)]))
       [("a.json", Parses good_doc)]
  = (fst (main empty_db [("a.json", Parses good_doc)]), Ok tt) /\
  exists fn,
    In (fn, Parses net_doc)
       [("a.json", Parses good_doc); ("b.json", Parses net_doc)] /\
    in_ledger fn ["a.json"] = false.
Proof.
  destruct rerun_inserts_nothing as (D & T & _). split.
  - apply (T (fst (main (server := plain_server) empty_db
                     [("a.json", Parses good_doc)]))
             [("a.json", Parses good_doc)] ["a.json"] eq_refl).
    intros fn f [H|[]]. injection H as <- _. reflexivity.
  - apply (D [("a.json", Parses good_doc); ("b.json", Parses net_doc)]
             (connect_to_db {| parsed_files := Some ["a.json"]; tables := [] |})
             ["a.json"] [net_doc] eq_refl eq_refl net_doc).
    now left.
Defined.

Lemma malformed_file_aborts_run_witness :
  main empty_db
    ([("a.json", Parses good_doc)]
       ++ ("b.json", Malformed) :: [("c.json", Parses net_doc)])
  = ({| parsed_files := Some ["a.json"]; tables := [] |},
     Raise JSONDecodeError).
Proof.
  apply (malformed_file_aborts_run empty_db
           [("a.json", Parses good_doc)] "b.json" [("c.json", Parses net_doc)]
           (connect_to_db {| parsed_files := Some ["a.json"]; tables := [] |})
           [good_doc] ["a.json"] eq_refl eq_refl eq_refl).
Defined.

(** A malformed file first in the directory: the well-formed file after it
    is neither parsed nor recorded, and the run ends with the exception. *)
Lemma malformed_file_stops_parsing :
  main empty_db [("a.json", Malformed); ("b.json", Parses good_doc)]
  = ({| parsed_files := Some []; tables := [] |}, Raise JSONDecodeError) /\
  main empty_db [("b.json", Parses good_doc)]
  = ({| parsed_files := Some ["b.json"];
        tables := [("diskbench",
                    match entry_row good_doc sample_title
                            (Py.split "-"%char sample_title) "diskbench"
                            good_entry with
                    | Ok row => [row]
                    | Raise _ => []
                    end)] |}, Ok tt).
Proof. vm_compute. split; reflexivity. Qed.



Lemma log_then_check_witness :
  exists c',
    log_parsed_file "a.json"
      (connect_to_db {| parsed_files := Some ["a.json"]; tables := [] |})
      = (c', Ok tt) /\
    parsed_files (working c') = Some ["a.json"; "a.json"].
Proof.
  destruct (log_then_check
              (connect_to_db {| parsed_files := Some ["a.json"]; tables := [] |})
              ["a.json"] "a.json" eq_refl) as (c' & H1 & H2 & _).
  exists c'. split; [exact H1|exact H2].
Defined.



Lemma six_segment_title_round_trip_witness :
  exists row,
    entry_row good_doc sample_title (Py.split "-"%char sample_title)
      "diskbench" good_entry = Ok row /\
    key row = JStr sample_title.
Proof.
  eexists. split; [vm_compute; reflexivity|].
  match goal with
  | |- key ?r = _ =>
      exact (proj1 (six_segment_title_round_trip good_doc sample_title
                      "diskbench"
                      ["ubuntu"; "22.04"; "uefi"; "default"; "2024.json"]
                      good_entry r eq_refl eq_refl eq_refl))
  end.
Defined.

Lemma perfbench_version_is_tail_witness :
  exists ident ver pre,
    Py.subscript (sample_entry "Apache" []) "identifier" = Ok (JStr ident) /\
    JStr "2.0.1" = JStr ver /\
    ident = (pre ++ ver)%string /\
    has_hyphen ver = false /\
    (pre = "" \/ exists pre', pre = (pre' ++ "-")%string) /\
    (has_hyphen ident = true -> exists pre', pre = (pre' ++ "-")%string) /\
    (has_hyphen ident = false -> pre = "" /\ ver = ident).
Proof.
  exact (perfbench_version_is_tail (sample_entry "Apache" []) (JStr "2.0.1")
           eq_refl).
Defined.

Lemma document_rows_follow_entries_witness :
  exists rows,
    find_table "diskbench"
      (tables (working (fst (process_file good_doc fresh_conn)))) =
      Some (rows_or_empty "diskbench" (working fresh_conn) ++ rows) /\
    length rows = 1.
Proof.
  destruct (document_rows_follow_entries (server := plain_server) good_doc sample_title "diskbench"
              ["ubuntu"; "22.04"; "uefi"; "default"; "2024.json"]
              [good_entry; sample_entry "Nginx" (without_value sample_title)]
              fresh_conn
              (fst (process_file (server := plain_server) good_doc fresh_conn))
              eq_refl eq_refl eq_refl eq_refl) as (rows & Hf & _ & Hl).
  exists rows. split; [exact Hf|exact Hl].
Defined.

Lemma rows_share_document_columns_witness :
  exists r1 r2,
    entry_row null_doc sample_title (Py.split "-"%char sample_title)
      "diskbench" null_entry = Ok r1 /\
    entry_row null_doc sample_title (Py.split "-"%char sample_title)
      "diskbench" good_entry = Ok r2 /\
    processor r1 = processor r2.
Proof.
  eexists. eexists. split; [vm_compute; reflexivity|].
  split; [vm_compute; reflexivity|].
  match goal with
  | |- processor ?a = processor ?b =>
      destruct (rows_share_document_columns null_doc sample_title
                  (Py.split "-"%char sample_title) "diskbench"
                  null_entry good_entry a b eq_refl eq_refl)
        as (_ & _ & _ & _ & _ & _ & Hp & _)
  end.
  exact Hp.
Defined.

Lemma non_mapping_result_gives_no_row_witness :
  exists r,
    process_result good_doc sample_title (Py.split "-"%char sample_title)
      "diskbench"
      (sample_entry "Apache" [(system_key sample_title, JNull)]) fresh_conn
    = (fresh_conn, r) /\ r = Raise TypeError.
Proof.
  destruct (non_mapping_result_gives_no_row good_doc sample_title
              (Py.split "-"%char sample_title) "diskbench"
              (sample_entry "Apache" [(system_key sample_title, JNull)])
              [(system_key sample_title, JNull)] JNull fresh_conn
              eq_refl eq_refl) as (r & Hrun & _ & _ & _ & Hn).
  - intros m. discriminate.
  - exists r. split; [exact Hrun|exact Hn].
Defined.


Lemma main_keeps_ledger_duplicate_free_witness :
  NoDup (ledger_names
           (fst (main empty_db
                   [("a.json", Parses good_doc); ("a.json", Parses net_doc)]))).
Proof.
  apply (main_keeps_ledger_duplicate_free empty_db
           [("a.json", Parses good_doc); ("a.json", Parses net_doc)]).
  constructor.
Defined.

Lemma all_parsed_files_are_recorded_witness :
  in_ledger "a.json"
    (ledger_names (fst (main empty_db [("a.json", Parses bad_doc)]))) = true.
Proof.
  apply (all_parsed_files_are_recorded empty_db [("a.json", Parses bad_doc)])
    with (f := Parses bad_doc).
  - intros fn [H|[]]. discriminate H.
  - now left.
Defined.

Lemma parse_files_all_new_witness :
  exists c',
    parse_files (parsed_dir [("a.json", good_doc); ("b.json", net_doc)])
      fresh_conn = (c', Ok [good_doc; net_doc]) /\
    parsed_files (working c') = Some ["a.json"; "b.json"].
Proof.
  destruct (parse_files_all_new [("a.json", good_doc); ("b.json", net_doc)]
              fresh_conn [] eq_refl) as (c' & H1 & H2 & _).
  - repeat constructor; simpl; intuition discriminate.
  - reflexivity.
  - exists c'. split; [exact H1|exact H2].
Defined.

Lemma main_failure_modes_witness :
  tables (fst (main empty_db [("a.json", Parses bad_doc)])) = tables empty_db /\
  in_ledger "a.json"
    (ledger_names (fst (main empty_db [("a.json", Parses bad_doc)]))) = true.
Proof.
  destruct (main_failure_modes (server := plain_server) empty_db [("a.json", Parses bad_doc)] KeyError
              eq_refl) as (H1 & _ & H2).
  split; [exact H1|].
  apply (H2 (or_introl eq_refl) "a.json" (Parses bad_doc)). now left.
Defined.

Lemma main_on_new_files_witness :
  main empty_db (parsed_dir [("a.json", good_doc)]) =
  match process_parsed_data [good_doc]
          (connect_to_db (with_ledger ["a.json"] empty_db)) with
  | (c3, Ok _) => (working c3, Ok tt)
  | (_, Raise x) => (with_ledger ["a.json"] empty_db, Raise x)
  end.
Proof.
  apply (main_on_new_files (server := plain_server) empty_db [("a.json", good_doc)]).
  - repeat constructor. intros [].
  - intros fn _. reflexivity.
Defined.

Lemma entry_row_succeeds_iff_witness :
  exists row,
    entry_row good_doc sample_title (Py.split "-"%char sample_title)
      "diskbench" good_entry = Ok row.
Proof.
  apply (proj2 (entry_row_succeeds_iff good_doc sample_title
                  (Py.split "-"%char sample_title) "diskbench" good_entry)).
  split; [vm_compute; lia|].
  split; [eexists; reflexivity|].
  split; [eexists; reflexivity|].
  split; [repeat constructor; eexists; reflexivity|].
  split; [eexists; reflexivity|].
  split; [eexists; reflexivity|].
  split; [eexists; reflexivity|].
  do 3 eexists. repeat split; reflexivity.
Defined.

